(** * afad_quake: the record normaliser and the daily aggregation engine

    A shallow embedding of [afad_quake/dataset.py] (class [EarthquakeDataset])
    and of [afad_quake/constants.py].

    Conventions of the embedding:
    - a raw AFAD record is a Python [dict]: a finite map from keys to scalars;
    - a pandas [DataFrame] is its ordered column list and its rows, a row
      being a finite map from column names to cells; a row is identified by
      its position, the index labels of every table the class builds being
      unique;
    - a float is a real number and [NaN], [None] and [NaT] are the one null
      cell [NA]; rounding and overflow of binary floats are not modelled;
    - an instant is the number of seconds of wall-clock time in the reference
      zone (Europe/Istanbul), so that [floor("D")] is a division by 86400;
    - a cell is read according to the dtype its column has after
      [to_dataframe]; dtype errors of pandas, which need an energy column
      written over a non-float column, are outside the model;
    - the pandas coercions ([to_numeric], [to_datetime], [str.lower], [str])
      are parameters of the development. *)

From Stdlib Require Import Reals Lra ZArith Lia Sorted.
From stdpp Require Import gmap strings list fin_maps pretty.

(** ** Python scalars, cells and frames *)

Inductive pyval :=
  | PNone
  | PBool (b : bool)
  | PInt (n : Z)
  | PFloat (x : R)
  | PStr (s : string).

Inductive cell :=
  | NA
  | Obj (v : pyval)
  | Float (x : R)
  | Stamp (t : Z)
  | Count (n : Z).

Inductive exn :=
  | ValueError (msg : string)
  | KeyError (key : string).

Inductive outcome (A : Type) :=
  | Return (a : A)
  | Raise (e : exn).
Arguments Return {A} a.
Arguments Raise {A} e.

Definition obind {A B} (m : outcome A) (k : A → outcome B) : outcome B :=
  match m with
  | Return a => k a
  | Raise e => Raise e
  end.

#[global] Instance outcome_bind : MBind outcome := λ A B k m, obind m k.
#[global] Instance outcome_ret : MRet outcome := λ A a, Return a.

Record DataFrame := { columns : list string; rows : list (gmap string cell) }.

(** An object cell; Python's [None] is a null. *)
Definition obj (v : pyval) : cell :=
  match v with
  | PNone => NA
  | _ => Obj v
  end.

Definition notna (c : cell) : bool :=
  match c with
  | NA => false
  | _ => true
  end.

(** [row[name]], a missing value reading as null. *)
Definition get (r : gmap string cell) (name : string) : cell :=
  default NA (r !! name).

Definition float_of (c : cell) : option R :=
  match c with
  | Float x => Some x
  | Count n => Some (IZR n)
  | _ => None
  end.

Definition stamp_of (c : cell) : option Z :=
  match c with
  | Stamp t => Some t
  | _ => None
  end.

Definition Rleb (x y : R) : bool := if Rle_dec x y then true else false.
Definition Rltb (x y : R) : bool := if Rlt_dec x y then true else false.

(** [series >= x] and [series <= x] on one cell: a null never satisfies a
    comparison. *)
Definition ge_float (c : cell) (x : R) : bool :=
  match float_of c with
  | Some m => Rleb x m
  | None => false
  end.

Definition le_float (c : cell) (x : R) : bool :=
  match float_of c with
  | Some m => Rleb m x
  | None => false
  end.

Definition ge_stamp (c : cell) (s : Z) : bool :=
  match stamp_of c with
  | Some t => (s <=? t)%Z
  | None => false
  end.

Definition le_stamp (c : cell) (s : Z) : bool :=
  match stamp_of c with
  | Some t => (t <=? s)%Z
  | None => false
  end.

(** [df[name] = values]: the column keeps its place when it exists and is
    appended otherwise. *)
Definition add_column (name : string) (cols : list string) : list string :=
  if decide (name ∈ cols) then cols else cols ++ [name].

Definition set_column (name : string) (f : gmap string cell → cell)
    (df : DataFrame) : DataFrame :=
  {| columns := add_column name (columns df);
     rows := map (λ r, <[name := f r]> r) (rows df) |}.

(** [df[mask]] for a mask computed row by row. *)
Definition filter_rows (p : gmap string cell → bool) (df : DataFrame)
    : DataFrame :=
  {| columns := columns df; rows := List.filter p (rows df) |}.

(** [df[name]]: a [KeyError] when the column does not exist. *)
Definition require_column (name : string) (df : DataFrame) : outcome unit :=
  if decide (name ∈ columns df) then Return tt else Raise (KeyError name).

(** ** constants.py *)

Definition CANONICAL_FIELDS : list string :=
  [ "event_id"; "time"; "latitude"; "longitude"; "depth_km"; "magnitude";
    "mag_type"; "location"; "province"; "district"; "country";
    "neighborhood"; "rms"; "is_event_update"; "last_update_time" ].

(** ** EarthquakeDataset._normalize_record *)

(** The inner helper [g]: the value of the first name that is a key
    of the record, [None] when no name is. *)
Fixpoint g (r : gmap string pyval) (names : list string) : pyval :=
  match names with
  | [] => PNone
  | n :: rest =>
      match r !! n with
      | Some v => v
      | None => g r rest
      end
  end.

Definition _normalize_record (r : gmap string pyval) : list (string * pyval) :=
  [ ("event_id", g r ["eventid"; "eventId"; "eventID"; "id"]);
    ("time", g r ["time"; "date"; "datetime"; "eventDate"; "lastOccurrenceTime"]);
    ("latitude", g r ["latitude"; "lat"]);
    ("longitude", g r ["longitude"; "lon"; "lng"]);
    ("depth_km", g r ["depth_km"; "depth"]);
    ("magnitude", g r ["magnitude"; "mag"]);
    ("mag_type", g r ["type"; "magType"]);
    ("location", g r ["location"; "title"; "place"]);
    ("province", g r ["province"; "il"]);
    ("district", g r ["district"; "ilce"]);
    ("country", g r ["country"]);
    ("neighborhood", g r ["neighborhood"; "mahalle"]);
    ("rms", g r ["rms"]);
    ("is_event_update", g r ["iseventupdate"; "isEventUpdate"]);
    ("last_update_time", g r ["lastupdatedate"; "lastUpdate"; "last_update_time"]) ].

(** The alias list of each canonical field, in the order [g] tries them. *)
Definition ALIASES : list (string * list string) :=
  [ ("event_id", ["eventid"; "eventId"; "eventID"; "id"]);
    ("time", ["time"; "date"; "datetime"; "eventDate"; "lastOccurrenceTime"]);
    ("latitude", ["latitude"; "lat"]);
    ("longitude", ["longitude"; "lon"; "lng"]);
    ("depth_km", ["depth_km"; "depth"]);
    ("magnitude", ["magnitude"; "mag"]);
    ("mag_type", ["type"; "magType"]);
    ("location", ["location"; "title"; "place"]);
    ("province", ["province"; "il"]);
    ("district", ["district"; "ilce"]);
    ("country", ["country"]);
    ("neighborhood", ["neighborhood"; "mahalle"]);
    ("rms", ["rms"]);
    ("is_event_update", ["iseventupdate"; "isEventUpdate"]);
    ("last_update_time", ["lastupdatedate"; "lastUpdate"; "last_update_time"]) ].

(** Lookup in a dict literal. *)
Fixpoint assoc (k : string) (d : list (string * pyval)) : option pyval :=
  match d with
  | [] => None
  | (k', v) :: d' => if decide (k = k') then Some v else assoc k d'
  end.

(** ** The dataset object and its methods

    A method runs on the dataset's state and either returns or raises; the
    state a raising method leaves behind is the one it had reached. *)

Record Dataset := { _raw : list (gmap string pyval); _df : option DataFrame }.

Definition M (A : Type) : Type := Dataset → outcome A * Dataset.

Definition ret {A} (a : A) : M A := λ s, (Return a, s).

Definition bind {A B} (m : M A) (k : A → M B) : M B := λ s,
  match m s with
  | (Return a, s') => k a s'
  | (Raise e, s') => (Raise e, s')
  end.

Definition lift {A} (o : outcome A) : M A := λ s, (o, s).

Definition set_df (df : DataFrame) : M unit := λ s,
  (Return tt, {| _raw := _raw s; _df := Some df |}).

#[global] Instance M_bind : MBind M := λ A B k m, bind m k.
#[global] Instance M_ret : MRet M := λ A a, ret a.

(** [EarthquakeDataset.from_records], that is [__init__]. *)
Definition from_records (records : list (gmap string pyval)) : Dataset :=
  {| _raw := records; _df := None |}.

(** [pd.DataFrame(rows)] for a list of dict literals: the columns are the
    keys in the order they are first seen. *)
Definition first_seen (dicts : list (list (string * pyval))) : list string :=
  foldl (λ acc d, foldl (λ a k, add_column k a) acc (map fst d)) [] dicts.

Definition DataFrame_of (dicts : list (list (string * pyval))) : DataFrame :=
  let cols := first_seen dicts in
  {| columns := cols;
     rows := map (λ d, list_to_map
                         (map (λ c, (c, from_option obj NA (assoc c d))) cols))
                 dicts |}.

Definition NUMERIC_FIELDS : list string :=
  ["latitude"; "longitude"; "depth_km"; "magnitude"; "rms"].

Definition ensure_canonical (df : DataFrame) : DataFrame :=
  foldl (λ df col, if decide (col ∈ columns df) then df
                   else set_column col (λ _, NA) df)
        df CANONICAL_FIELDS.

Definition order_columns (df : DataFrame) : DataFrame :=
  {| columns := CANONICAL_FIELDS
                ++ List.filter (λ c, bool_decide (c ∉ CANONICAL_FIELDS))
                     (columns df);
     rows := rows df |}.

(** *** pandas pieces of the daily aggregation *)

(** [Timestamp.floor("D")] on wall-clock seconds. *)
Definition floor_day (t : Z) : Z := 86400 * (t / 86400).

Definition day_cell (c : cell) : cell :=
  match c with
  | Stamp t => Stamp (floor_day t)
  | _ => NA
  end.

(** The group key of a row: its [__day] cell, [NaT] being no key. *)
Definition day_of (r : gmap string cell) : option Z := stamp_of (get r "__day").

Definition magnitude_of (r : gmap string cell) : option R :=
  float_of (get r "magnitude").

(** [groupby("__day")]: the groups in ascending key order, the rows of a
    group in table order, rows without a key dropped. *)
Fixpoint insert_key (d : Z) (l : list Z) : list Z :=
  match l with
  | [] => [d]
  | x :: l' =>
      if (d <? x)%Z then d :: l
      else if (d =? x)%Z then l
      else x :: insert_key d l'
  end.

Definition group_keys (rs : list (gmap string cell)) : list Z :=
  foldr insert_key [] (omap day_of rs).

Definition group (d : Z) (rs : list (gmap string cell))
    : list (gmap string cell) :=
  List.filter (λ r, bool_decide (day_of r = Some d)) rs.

Definition groupby (rs : list (gmap string cell))
    : list (Z * list (gmap string cell)) :=
  map (λ d, (d, group d rs)) (group_keys rs).

(** [idxmax] of one group: the first row holding the largest non-null key;
    no row when every key is null. *)
Fixpoint idxmax_from (key : gmap string cell → option R)
    (best : gmap string cell) (m : R) (l : list (gmap string cell))
    : gmap string cell :=
  match l with
  | [] => best
  | r :: l' =>
      match key r with
      | Some x => if Rltb m x then idxmax_from key r x l'
                  else idxmax_from key best m l'
      | None => idxmax_from key best m l'
      end
  end.

Fixpoint idxmax (key : gmap string cell → option R)
    (l : list (gmap string cell)) : option (gmap string cell) :=
  match l with
  | [] => None
  | r :: l' =>
      match key r with
      | Some m => Some (idxmax_from key r m l')
      | None => idxmax key l'
      end
  end.

(** [count]: the non-null cells of a column; [size]: the rows. *)
Definition count_notna (name : string) (rs : list (gmap string cell)) : Z :=
  Z.of_nat (length (List.filter (λ r, notna (get r name)) rs)).

Definition size (rs : list (gmap string cell)) : Z := Z.of_nat (length rs).

(** [sum] and [max] of a float column, nulls skipped: the sum of no value is
    [0.0], the maximum of no value is null. *)
Definition dropna (xs : list (option R)) : list R :=
  omap (λ o : option R, o) xs.

Definition series_sum (xs : list (option R)) : R :=
  foldr Rplus 0%R (dropna xs).

Definition series_max (xs : list (option R)) : option R :=
  match dropna xs with
  | [] => None
  | x :: l => Some (foldl Rmax x l)
  end.

Definition float_cell (o : option R) : cell :=
  match o with
  | Some x => Float x
  | None => NA
  end.

Definition drop_column (name : string) (cols : list string) : list string :=
  List.filter (λ c, bool_decide (c ≠ name)) cols.

(** The row [df.loc[idx]] keeps in the arg-max modes: [event_count] attached,
    [time] replaced by the day, [__day] dropped. *)
Definition finish_pick (n : Z) (r : gmap string cell) : gmap string cell :=
  delete "__day" (<["time" := get r "__day"]> (<["event_count" := Count n]> r)).

Definition picked_columns (cols : list string) : list string :=
  drop_column "__day" (add_column "time" (add_column "event_count" cols)).

(** [pd.date_range(start_day, end_day, freq="D")]. *)
Definition date_range (s e : Z) : list Z :=
  map (λ k, (s + 86400 * Z.of_nat k)%Z) (seq 0 (Z.to_nat ((e - s) / 86400 + 1))).

Definition min_day (rs : list (gmap string cell)) : option Z :=
  match omap day_of rs with
  | [] => None
  | d :: l => Some (foldl Z.min d l)
  end.

Definition max_day (rs : list (gmap string cell)) : option Z :=
  match omap day_of rs with
  | [] => None
  | d :: l => Some (foldl Z.max d l)
  end.

Definition na_row (cols : list string) : gmap string cell :=
  list_to_map (map (λ c, (c, NA)) cols).

(** [set_index("time").reindex(full_idx).rename_axis("time").reset_index()]:
    one row per day of [full_idx], the row of the table that has this day
    when there is one and an all-null row otherwise.  The days of a reduced
    table are distinct, so [reindex] never meets a duplicate label. *)
Definition reindex (days : list Z) (df : DataFrame) : DataFrame :=
  {| columns := "time" :: drop_column "time" (columns df);
     rows := map (λ d,
               match List.find (λ r, bool_decide (stamp_of (get r "time") = Some d))
                       (rows df) with
               | Some r => r
               | None => <["time" := Stamp d]> (na_row (columns df))
               end) days |}.

Definition fillna (name : string) (v : cell) (df : DataFrame) : DataFrame :=
  {| columns := columns df;
     rows := map (λ r, if notna (get r name) then r else <[name := v]> r)
                 (rows df) |}.

Definition trunc (x : R) : Z :=
  if Rle_dec 0 x then Int_part x else (- Int_part (- x))%Z.

(** [series.fillna(0).astype(int)] on one cell. *)
Definition fill0_int (c : cell) : cell :=
  match c with
  | NA => Count 0
  | Float x => Count (trunc x)
  | _ => c
  end.

(** [mapM] on outcomes: the first [Raise] wins. *)
Fixpoint traverse {A B} (f : A → outcome B) (l : list A) : outcome (list B) :=
  match l with
  | [] => Return []
  | a :: l' => b ← f a; bs ← traverse f l'; Return (b :: bs)
  end.

Section Pandas.

(** [pd.to_numeric(_, errors="coerce")] on one Python scalar. *)
Variable to_numeric : pyval → option R.
(** [pd.to_datetime(_, errors="coerce")] followed by the localisation or the
    conversion to Europe/Istanbul, on one Python scalar. *)
Variable to_datetime : pyval → option Z.
(** [str.lower] and [str]. *)
Variable str_lower : string → string.
Variable py_str : pyval → string.

Definition numeric_of (c : cell) : option R :=
  match c with
  | Obj v => to_numeric v
  | Float x => Some x
  | Count n => Some (IZR n)
  | _ => None
  end.

Definition numeric_cell (c : cell) : cell :=
  match numeric_of c with
  | Some x => Float x
  | None => NA
  end.

Definition time_cell (c : cell) : cell :=
  match c with
  | Obj v => match to_datetime v with Some t => Stamp t | None => NA end
  | Stamp t => Stamp t
  | _ => NA
  end.

Definition coerce_numeric (df : DataFrame) : DataFrame :=
  foldl (λ df col, if decide (col ∈ columns df)
                   then set_column col (λ r, numeric_cell (get r col)) df
                   else df)
        df NUMERIC_FIELDS.

Definition parse_time (df : DataFrame) : DataFrame :=
  if decide ("time" ∈ columns df)
  then set_column "time" (λ r, time_cell (get r "time")) df
  else df.

(** The table [to_dataframe] derives from the raw records. *)
Definition build (raw : list (gmap string pyval)) : DataFrame :=
  order_columns
    (parse_time
       (coerce_numeric
          (ensure_canonical (DataFrame_of (map _normalize_record raw))))).

Definition to_dataframe : M DataFrame := λ s,
  match _df s with
  | Some df => (Return df, s)
  | None =>
      let df := build (_raw s) in
      (Return df, {| _raw := _raw s; _df := Some df |})
  end.

(** *** Filters *)

Definition between {A} (ge le : cell → A → bool) (name : string)
    (lo hi : option A) (df : DataFrame) : DataFrame :=
  let df1 := match lo with
             | Some x => filter_rows (λ r, ge (get r name) x) df
             | None => df
             end in
  match hi with
  | Some x => filter_rows (λ r, le (get r name) x) df1
  | None => df1
  end.

Definition filter_by_date (start end_ : option Z) : M unit :=
  df ← to_dataframe;
  _ ← lift (require_column "time" df);
  set_df (between ge_stamp le_stamp "time" start end_ df).

Definition filter_by_magnitude (min_mag max_mag : option R) : M unit :=
  df ← to_dataframe;
  _ ← lift (require_column "magnitude" df);
  set_df (between ge_float le_float "magnitude" min_mag max_mag df).

Definition filter_by_depth (min_depth_km max_depth_km : option R) : M unit :=
  df ← to_dataframe;
  _ ← lift (require_column "depth_km" df);
  set_df (between ge_float le_float "depth_km" min_depth_km max_depth_km df).

(** [series.astype("string")] on one cell. *)
Definition astype_string (c : cell) : option string :=
  match c with
  | NA => None
  | Obj (PStr s) => Some s
  | Obj v => Some (py_str v)
  | Float x => Some (py_str (PFloat x))
  | Stamp t => Some (py_str (PInt t))
  | Count n => Some (py_str (PInt n))
  end.

Definition mag_type_mask (allowed : list string) (case_insensitive : bool)
    (r : gmap string cell) : bool :=
  match astype_string (get r "mag_type") with
  | None => false
  | Some s =>
      if case_insensitive
      then bool_decide (str_lower s ∈ map str_lower allowed)
      else bool_decide (s ∈ allowed)
  end.

Definition filter_by_mag_type (allowed : list string)
    (case_insensitive : bool) : M unit :=
  df ← to_dataframe;
  _ ← lift (require_column "mag_type" df);
  set_df (filter_rows (mag_type_mask allowed case_insensitive) df).

(** *** Energy *)

(** [np.where(m.notna(), np.power(10.0, a + b * m), np.nan)] on one cell. *)
Definition energy_cell (a b : R) (c : cell) : cell :=
  match numeric_of c with
  | Some m => Float (Rpower 10 (a + b * m))
  | None => NA
  end.

Definition convert_energy_frame (a b : R) (out_col : string) (df : DataFrame)
    : outcome DataFrame :=
  _ ← require_column "magnitude" df;
  Return (set_column out_col (λ r, energy_cell a b (get r "magnitude")) df).

Definition convert_energy (a b : R) (out_col : string) : M unit :=
  df ← to_dataframe;
  df' ← lift (convert_energy_frame a b out_col df);
  set_df df'.

(** *** Daily aggregation *)

(** The inner helper [_ensure_energy] of [aggregate_daily]. *)
Definition _ensure_energy (energy_col : string) (local_df : DataFrame)
    : outcome DataFrame :=
  if decide (energy_col ∈ columns local_df) then Return local_df
  else convert_energy_frame 1.44 5.24 energy_col local_df.

(** One entry of [groupby("__day")["magnitude"].idxmax()] followed by
    [df.loc[idx]]: a group without a non-null magnitude has the label [NaN],
    which [loc] does not find (pandas 3 raises in [idxmax] itself). *)
Definition pick_idxmax (grp : Z * list (gmap string cell))
    : outcome (Z * gmap string cell) :=
  match idxmax magnitude_of grp.2 with
  | Some r => Return (grp.1, r)
  | None => Raise (KeyError "nan")
  end.

Definition daily_max_mag (df : DataFrame) : outcome DataFrame :=
  _ ← require_column "magnitude" df;
  picks ← traverse pick_idxmax (groupby (rows df));
  _ ← require_column "event_id" df;
  Return {| columns := picked_columns (columns df);
            rows := map (λ p : Z * gmap string cell,
                      finish_pick (count_notna "event_id" (group p.1 (rows df)))
                        p.2)
                    picks |}.

Definition daily_mag_threshold (threshold : option R) (df : DataFrame)
    : outcome DataFrame :=
  match threshold with
  | None =>
      Raise (ValueError "threshold must be provided for 'daily_mag_threshold'")
  | Some th =>
      _ ← require_column "magnitude" df;
      let sub := filter_rows (λ r, ge_float (get r "magnitude") th) df in
      match rows sub with
      | [] => Return sub
      | _ =>
          picks ← traverse pick_idxmax (groupby (rows sub));
          _ ← require_column "event_id" df;
          Return {| columns := picked_columns (columns sub);
                    rows := map (λ p : Z * gmap string cell,
                              finish_pick (size (group p.1 (rows df))) p.2)
                            picks |}
      end
  end.

Definition daily_energy (use_sum : bool) (energy_col : string)
    (df : DataFrame) : outcome DataFrame :=
  df ← _ensure_energy energy_col df;
  _ ← require_column "event_id" df;
  _ ← require_column "magnitude" df;
  Return
    {| columns := ["time"; "energy_J"; "event_count"; "magnitude"];
       rows := map (λ grp : Z * list (gmap string cell),
                 let es := map (λ r, float_of (get r energy_col)) grp.2 in
                 <["time" := Stamp grp.1]>
                   (<["energy_J" := if use_sum then Float (series_sum es)
                                    else float_cell (series_max es)]>
                      (<["event_count" := Count (count_notna "event_id" grp.2)]>
                         (<["magnitude" :=
                              float_cell (series_max (map magnitude_of grp.2))]>
                            ∅))))
               (groupby (rows df)) |}.

(** The gap filling of [aggregate_daily]; [df] is the windowed table, [now]
    the reading of the clock. *)
Definition fill_days (start end_ : option Z) (now : Z) (df result : DataFrame)
    : outcome DataFrame :=
  let nat_error := ValueError "Neither `start` nor `end` can be NaT" in
  start_day ← match start with
              | Some s => Return (floor_day s)
              | None =>
                  match rows df with
                  | [] => Return (floor_day now)
                  | _ => match min_day (rows df) with
                         | Some d => Return (floor_day d)
                         | None => Raise nat_error
                         end
                  end
              end;
  end_day ← match end_ with
            | Some e => Return (floor_day e)
            | None =>
                match rows df with
                | [] => Return (floor_day start_day)
                | _ => match max_day (rows df) with
                       | Some d => Return (floor_day d)
                       | None => Raise nat_error
                       end
                end
            end;
  _ ← require_column "time" result;
  let result := reindex (date_range start_day end_day) result in
  let result := if decide ("energy_J" ∈ columns result)
                then fillna "energy_J" (Float 0) result
                else result in
  Return (set_column "event_count" (λ r, fill0_int (get r "event_count")) result).

(** [aggregate_daily] from the copy of the current table on: all of the
    method but its first and last statements. *)
Definition aggregate_frame (mode : string) (threshold : option R)
    (energy_col : string) (fill_empty_days : bool) (start end_ : option Z)
    (now : Z) (df : DataFrame) : outcome DataFrame :=
  _ ← require_column "time" df;
  let df := set_column "__day" (λ r, day_cell (get r "time")) df in
  let df := between ge_stamp le_stamp "__day"
              (floor_day <$> start) (floor_day <$> end_) df in
  result ←
    (if decide (mode = "daily_max_mag") then daily_max_mag df
     else if decide (mode = "daily_mag_threshold")
          then daily_mag_threshold threshold df
     else if decide (mode = "daily_energy_sum")
          then daily_energy true energy_col df
     else if decide (mode = "daily_energy_max")
          then daily_energy false energy_col df
     else Raise (ValueError ("Unknown mode: " +:+ mode)));
  if fill_empty_days then fill_days start end_ now df result
  else Return result.

Definition aggregate_daily (mode : string) (threshold : option R)
    (energy_col : string) (fill_empty_days : bool) (start end_ : option Z)
    (now : Z) : M unit :=
  if decide (mode = "all_events") then mret tt
  else
    df ← to_dataframe;
    result ← lift (aggregate_frame mode threshold energy_col fill_empty_days
                     start end_ now df);
    set_df result.

End Pandas.

(** ** Specification predicates and sample data *)

(** [v] is what a first-match-wins lookup of [names] in [r] gives: the value
    of the first name that is a key, [None] when no name is a key. *)
Definition first_match (r : gmap string pyval) (names : list string)
    (v : pyval) : Prop :=
  (∃ pre n post, names = pre ++ n :: post
                 ∧ Forall (λ p, r !! p = None) pre ∧ r !! n = Some v)
  ∨ (Forall (λ n, r !! n = None) names ∧ v = PNone).

Definition in_range {A} (ge le : cell → A → bool) (lo hi : option A)
    (c : cell) : bool :=
  match lo with Some x => ge c x | None => true end
  && match hi with Some x => le c x | None => true end.

(** [r] is the stable arg-max of [key] in [l]: it stands in [l], its key is
    non-null, no row has a larger key and the rows before it have smaller
    ones. *)
Definition first_max (key : gmap string cell → option R)
    (l : list (gmap string cell)) (r : gmap string cell) : Prop :=
  ∃ i m, l !! i = Some r ∧ key r = Some m
    ∧ ∀ j r' m', l !! j = Some r' → key r' = Some m' →
        (m' <= m)%R ∧ (j < i → (m' < m)%R).

(** The calendar day of a row of the table, the test of the date window of
    [aggregate_daily], and the row an arg-max mode makes of a selected
    row. *)
Definition day (r : gmap string cell) : option Z :=
  stamp_of (day_cell (get r "time")).

Definition in_window (start end_ : option Z) (r : gmap string cell) : bool :=
  in_range ge_stamp le_stamp (floor_day <$> start) (floor_day <$> end_)
    (day_cell (get r "time")).

Definition on_day (d : Z) (r : gmap string cell) : bool :=
  bool_decide (day r = Some d).

Definition restamp (d n : Z) (r : gmap string cell) : gmap string cell :=
  <["time" := Stamp d]> (<["event_count" := Count n]> (delete "__day" r)).

(** The row [df.assign(__day=day)] makes of a row, and the table
    [aggregate_daily] reduces: the day column added, the date window
    applied. *)
Definition annotate (r : gmap string cell) : gmap string cell :=
  <["__day" := day_cell (get r "time")]> r.

Definition qualifies (th : R) (r : gmap string cell) : bool :=
  ge_float (get r "magnitude") th.

Definition MODES : list string :=
  ["all_events"; "daily_max_mag"; "daily_mag_threshold"; "daily_energy_sum";
   "daily_energy_max"].

(** Coercions for already typed records: numbers are numbers, an instant is
    given in seconds of wall-clock time. *)
Definition plain_numeric (v : pyval) : option R :=
  match v with
  | PFloat x => Some x
  | PInt n => Some (IZR n)
  | _ => None
  end.

Definition plain_datetime (v : pyval) : option Z :=
  match v with
  | PInt n => Some n
  | _ => None
  end.

Definition plain_lower (s : string) : string := s.

(** The table of a dataset under these coercions. *)
Definition current_plain (ds : Dataset) : DataFrame :=
  match _df ds with
  | Some df => df
  | None => build plain_numeric plain_datetime (_raw ds)
  end.

(** A record of the feed, reduced to the keys the samples need. *)
Definition event (id : pyval) (time : Z) (mag : pyval) : gmap string pyval :=
  <["eventID" := id]> (<["date" := PInt time]> (<["magnitude" := mag]> ∅)).

(** One event of magnitude 0 at 10:00 of day 0. *)
Definition one_quiet_event : Dataset :=
  from_records [event (PStr "e1") 36000 (PFloat 0)].

(** The same dataset after [daily_max_mag] over days 0 to 2, without gap
    filling. *)
Definition one_quiet_day : Dataset :=
  (aggregate_daily plain_numeric plain_datetime "daily_max_mag" None
     "energy_J" false (Some 0%Z) (Some 172800%Z) 0 one_quiet_event).2.

(** A record with the keys [time] and [mag] only, as in the scenarios of the
    specification. *)
Definition anonymous_event (time : Z) (mag : pyval) : gmap string pyval :=
  <["time" := PInt time]> (<["mag" := mag]> ∅).

(** One event of magnitude 5, without an id, at 10:00 of day 0. *)
Definition one_anonymous_event : Dataset :=
  from_records [anonymous_event 36000 (PFloat 5)].

(** One event with an id and without a magnitude, at 10:00 of day 0. *)
Definition one_unmeasured_event : Dataset :=
  from_records [event (PStr "e1") 36000 PNone].

(** Events without ids of magnitude 5 at 10:00 of day 0 and of magnitude 3
    at 05:00 of day 2. *)
Definition two_anonymous_days : Dataset :=
  from_records [anonymous_event 36000 (PFloat 5);
                anonymous_event 190800 (PFloat 3)].

(** What a call leaves behind: its outcome and the cells of the given
    columns in the table of the dataset. *)
Definition observe (cols : list string) (x : outcome unit * Dataset)
    : outcome unit * list (list cell) :=
  (x.1, map (λ r, map (get r) cols)
          (rows (current_plain x.2))).

Definition plain_str (v : pyval) : string :=
  match v with
  | PStr s => s
  | _ => ""
  end.

(** A call of one of the four filters, and the test it makes on a cell. *)
Inductive filter_spec :=
  | ByDate (start end_ : option Z)
  | ByMagnitude (min_mag max_mag : option R)
  | ByDepth (min_depth_km max_depth_km : option R)
  | ByMagType (allowed : list string) (case_insensitive : bool).

Definition tested_column (f : filter_spec) : string :=
  match f with
  | ByDate _ _ => "time"
  | ByMagnitude _ _ => "magnitude"
  | ByDepth _ _ => "depth_km"
  | ByMagType _ _ => "mag_type"
  end.

(** No bound is given: the filter keeps every row. *)
Definition unbounded (f : filter_spec) : bool :=
  match f with
  | ByDate None None | ByMagnitude None None | ByDepth None None => true
  | _ => false
  end.

(** A table of days: it has a [time] column, the [time] cells of its rows
    are the starts of the days [ks], in this order, and every row carries an
    integer [event_count]. *)
Definition day_table (ks : list Z) (df : DataFrame) : Prop :=
  "time" ∈ columns df
  ∧ map (λ r, get r "time") (rows df) = map Stamp ks
  ∧ Forall (λ r, ∃ n, get r "event_count" = Count n) (rows df).

Section Facts.

Variable to_numeric : pyval → option R.
Variable to_datetime : pyval → option Z.
Variable str_lower : string → string.
Variable py_str : pyval → string.

(** The table [to_dataframe] returns in a given state. *)
Definition current (ds : Dataset) : DataFrame :=
  match _df ds with
  | Some df => df
  | None => build to_numeric to_datetime (_raw ds)
  end.

Definition apply_filter (f : filter_spec) : M unit :=
  match f with
  | ByDate s e => filter_by_date to_numeric to_datetime s e
  | ByMagnitude a b => filter_by_magnitude to_numeric to_datetime a b
  | ByDepth a b => filter_by_depth to_numeric to_datetime a b
  | ByMagType allowed ci =>
      filter_by_mag_type to_numeric to_datetime str_lower py_str allowed ci
  end.

(** The rows a filter keeps. *)
Definition keeps (f : filter_spec) (r : gmap string cell) : bool :=
  match f with
  | ByDate s e => in_range ge_stamp le_stamp s e (get r "time")
  | ByMagnitude a b => in_range ge_float le_float a b (get r "magnitude")
  | ByDepth a b => in_range ge_float le_float a b (get r "depth_km")
  | ByMagType allowed ci => mag_type_mask str_lower py_str allowed ci r
  end.

End Facts.

(** ** api.py: the client of the AFAD event service

    Conventions of this part: the service and the network are a parameter
    [send], the reply to the n-th request of a run; the state of a run is the
    [AfadAPI] object and the record [Net] of the clients created and closed
    and of the requests sent; a JSON payload is described as far as the
    client looks at it; the dates are abstract, with their formatting a
    parameter; the calls of the logger are left out except for the [len]
    they evaluate, which can raise. *)

Definition BASE_URL : string := "https://deprem.afad.gov.tr".
Definition API_ROOT : string := "/apiv2".
Definition ENDPOINT_LATEST : string := "/event/latest".
Definition ENDPOINT_FILTER : string := "/event/filter".

(** The exceptions [api.py] raises, [ApiValueError] being Python's
    [ValueError]. *)
Inductive api_exn :=
  | ApiValueError (msg : string)
  | RuntimeError (msg : string)
  | TypeError (msg : string).

Inductive reply (A : Type) :=
  | Ok (a : A)
  | Err (e : api_exn).
Arguments Ok {A} a.
Arguments Err {A} e.

(** A decoded payload: a list of event objects, a dict that has the key
    [data], with the value it has there, a dict without this key, a string,
    or a number, a boolean or null, given by the name of its Python type. *)
Inductive json :=
  | JList (items : list (gmap string pyval))
  | JWrapped (data : json)
  | JDict
  | JStr (s : string)
  | JAtom (type_name : string).

Definition type_name_of (j : json) : string :=
  match j with
  | JList _ => "list"
  | JWrapped _ | JDict => "dict"
  | JStr _ => "str"
  | JAtom n => n
  end.

(** [len(items)], evaluated for the log line. *)
Definition has_len (j : json) : bool :=
  match j with
  | JAtom _ => false
  | _ => true
  end.

(** [resp.json()] raises when the body does not decode: [None]. *)
Record Response := {
  status_code : Z;
  text : string;
  json_body : option json }.

Inductive sent_reply :=
  | Responded (resp : Response)
  | RequestError (repr : string).

(** An [httpx.Client]: the one handed to the constructor, or the n-th one
    the object creates. *)
Inductive client :=
  | Supplied
  | Created (n : nat).

Record AfadAPI := {
  base_url : string;
  timeout : R;
  _client : option client }.

Record Net := {
  requests : list (client * string * gmap string pyval);
  clients_created : nat;
  clients_closed : list client }.

(** [str.rstrip("/")]. *)
Fixpoint rstrip_slash (s : string) : string :=
  match s with
  | EmptyString => EmptyString
  | String c s' =>
      match rstrip_slash s' with
      | EmptyString =>
          if String.eqb (String c EmptyString) "/" then EmptyString
          else String c EmptyString
      | t => String c t
      end
  end.

Definition __init__ (url : string) (seconds : R) (c : option client)
    : AfadAPI :=
  {| base_url := rstrip_slash url; timeout := seconds; _client := c |}.

Definition _ensure_client (st : AfadAPI * Net) : client * (AfadAPI * Net) :=
  let c := Created (clients_created st.2) in
  (c, ({| base_url := base_url st.1; timeout := timeout st.1;
          _client := Some c |},
       {| requests := requests st.2;
          clients_created := S (clients_created st.2);
          clients_closed := clients_closed st.2 |})).

Definition close (st : AfadAPI * Net) : AfadAPI * Net :=
  match _client st.1 with
  | Some c =>
      ({| base_url := base_url st.1; timeout := timeout st.1;
          _client := None |},
       {| requests := requests st.2;
          clients_created := clients_created st.2;
          clients_closed := clients_closed st.2 ++ [c] |})
  | None => st
  end.

Definition __enter__ (st : AfadAPI * Net) : AfadAPI * Net :=
  (_ensure_client st).2.

Definition __exit__ (st : AfadAPI * Net) : AfadAPI * Net := close st.

Definition _url (api : AfadAPI) (endpoint : string) : string :=
  base_url api +:+ API_ROOT +:+ endpoint.

Definition _validate_bbox (bbox : R * R * R * R) : reply unit :=
  let '(min_lat, min_lon, max_lat, max_lon) := bbox in
  if negb ((Rleb (-90) min_lat && Rleb min_lat 90)
           && (Rleb (-90) max_lat && Rleb max_lat 90))
  then Err (ApiValueError "Latitude must be in [-90, 90].")
  else if negb ((Rleb (-180) min_lon && Rleb min_lon 180)
                && (Rleb (-180) max_lon && Rleb max_lon 180))
  then Err (ApiValueError "Longitude must be in [-180, 180].")
  else if Rleb max_lat min_lat || Rleb max_lon min_lon
  then Err (ApiValueError
              "Invalid bbox: require max_lat>min_lat and max_lon>min_lon.")
  else Ok tt.

Definition _validate_radius (radius : R * R * R) : reply unit :=
  let '(lat, lon, r_km) := radius in
  if negb (Rleb (-90) lat && Rleb lat 90)
     || negb (Rleb (-180) lon && Rleb lon 180)
  then Err (ApiValueError "Center (lat, lon) out of range.")
  else if Rleb r_km 0
  then Err (ApiValueError "Radius (km) must be positive.")
  else Ok tt.

Section Service.

(** The reply to the n-th request of the run. *)
Variable send : nat → string → gmap string pyval → sent_reply.
(** [datetime.date] and [datetime.datetime]; [datetime.combine(d, time(0, 0,
    0))]; the move to the zone [assume_tz], by [replace] for a naive value
    and by [astimezone] for an aware one; [strftime("%Y-%m-%dT%H:%M:%S")];
    [dt - timedelta(hours=h)]. *)
Variable date datetime : Type.
Variable midnight : date → datetime.
Variable in_zone : datetime → datetime.
Variable strftime : datetime → string.
Variable minus_hours : datetime → Z → datetime.

Inductive when :=
  | WhenStr (s : string)
  | WhenDate (d : date)
  | WhenDateTime (dt : datetime).

Definition _to_iso8601 (dt : when) : string :=
  match dt with
  | WhenStr s => s
  | WhenDate d => strftime (in_zone (midnight d))
  | WhenDateTime t => strftime (in_zone t)
  end.

Definition _get_json (url : string) (params : gmap string pyval)
    (st : AfadAPI * Net) : reply json * (AfadAPI * Net) :=
  let '(c, (api, net)) := _ensure_client st in
  let answer := send (length (requests net)) url params in
  let st' := (api, {| requests := requests net ++ [(c, url, params)];
                      clients_created := clients_created net;
                      clients_closed := clients_closed net |}) in
  match answer with
  | RequestError repr =>
      (Err (RuntimeError ("AFAD request error: " +:+ repr)), st')
  | Responded resp =>
      if decide (status_code resp ≠ 200%Z)
      then (Err (RuntimeError ("AFAD HTTP " +:+ pretty (status_code resp)
                               +:+ ": " +:+ String.substring 0 300 (text resp))),
            st')
      else if decide (status_code resp = 204%Z) then (Ok (JList []), st')
      else
        match json_body resp with
        | None =>
            (Err (RuntimeError ("AFAD returned non-JSON payload: "
                                +:+ String.substring 0 300 (text resp))), st')
        | Some data =>
            match data with
            | JWrapped d => (Ok d, st')
            | JList _ => (Ok data, st')
            | _ => (Err (RuntimeError ("Unexpected AFAD response type: <class '"
                                       +:+ type_name_of data +:+ "'>")), st')
            end
        end
  end.

(** The log line [len(items)] of the two fetchers. *)
Definition logged_len (items : json) : reply json :=
  if has_len items then Ok items
  else Err (TypeError ("object of type '" +:+ type_name_of items
                       +:+ "' has no len()")).

(** The query parameters of [fetch_by_filter] before [extra_params]. *)
Definition filter_params (start_iso end_iso orderby : string)
    (limit : option Z) (bbox : option (R * R * R * R))
    (radius : option (R * R * R)) : reply (gmap string pyval) :=
  let params : gmap string pyval :=
    <["orderby" := PStr orderby]>
      (<["end" := PStr end_iso]> (<["start" := PStr start_iso]> ∅)) in
  let params := match limit with
                | Some n => <["limit" := PInt n]> params
                | None => params
                end in
  match bbox with
  | Some b =>
      match _validate_bbox b with
      | Err e => Err e
      | Ok _ =>
          let '(min_lat, min_lon, max_lat, max_lon) := b in
          Ok (<["maxlon" := PFloat max_lon]>
                (<["minlon" := PFloat min_lon]>
                   (<["maxlat" := PFloat max_lat]>
                      (<["minlat" := PFloat min_lat]> params))))
      end
  | None =>
      match radius with
      | Some r =>
          match _validate_radius r with
          | Err e => Err e
          | Ok _ =>
              let '(lat, lon, r_km) := r in
              Ok (<["minrad" := PInt 0]>
                    (<["maxrad" := PFloat r_km]>
                       (<["lon" := PFloat lon]>
                          (<["lat" := PFloat lat]> params))))
          end
      | None => Ok params
      end
  end.

Definition fetch_by_filter (start end_ : when) (orderby : string)
    (limit : option Z) (bbox : option (R * R * R * R))
    (radius : option (R * R * R)) (extra_params : option (gmap string pyval))
    (st : AfadAPI * Net) : reply json * (AfadAPI * Net) :=
  match bbox, radius with
  | Some _, Some _ =>
      (Err (ApiValueError "Provide either 'bbox' or 'radius', not both."), st)
  | _, _ =>
      match filter_params (_to_iso8601 start) (_to_iso8601 end_) orderby
              limit bbox radius with
      | Err e => (Err e, st)
      | Ok params =>
          let params := match extra_params with
                        | Some extra => extra ∪ params
                        | None => params
                        end in
          match _get_json (_url st.1 ENDPOINT_FILTER) params st with
          | (Ok items, st') => (logged_len items, st')
          | (Err e, st') => (Err e, st')
          end
      end
  end.

Definition fetch_latest (limit : option Z) (window_hours : Z)
    (fallback_to_filter : bool) (now : datetime) (st : AfadAPI * Net)
    : reply json * (AfadAPI * Net) :=
  let params : gmap string pyval :=
    match limit with
    | Some n => <["limit" := PInt n]> ∅
    | None => ∅
    end in
  match _get_json (_url st.1 ENDPOINT_LATEST) params st with
  | (Ok items, st') => (logged_len items, st')
  | (Err (RuntimeError msg), st') =>
      if negb fallback_to_filter then (Err (RuntimeError msg), st')
      else
        let start_dt := minus_hours now window_hours in
        let start_iso := _to_iso8601 (WhenDateTime start_dt) in
        let end_iso := _to_iso8601 (WhenDateTime now) in
        fetch_by_filter (WhenStr start_iso) (WhenStr end_iso) "timedesc"
          limit None None None st'
  | (Err e, st') => (Err e, st')
  end.

End Service.

(** ** logger.py *)

Inductive handler :=
  | NullHandler
  | StreamHandler (level : Z) (fmt datefmt : string).

(** The library logger [logging.getLogger("afad_quake")]: its handlers and
    its level, when one was set. *)
Record Logger := { handlers : list handler; logger_level : option Z }.

Definition get_logger (logger : Logger) : Logger :=
  match handlers logger with
  | [] => {| handlers := [NullHandler]; logger_level := logger_level logger |}
  | _ => logger
  end.

Definition configure_logging (level : Z) (fmt : option string)
    (logger : Logger) : Logger :=
  let fmt := match fmt with
             | Some s => if decide (s = EmptyString)
                         then "[%(asctime)s] %(levelname)s %(name)s - %(message)s"
                         else s
             | None => "[%(asctime)s] %(levelname)s %(name)s - %(message)s"
             end in
  {| handlers := [StreamHandler level fmt "%Y-%m-%d %H:%M:%S"];
     logger_level := Some level |}.

(** ** Further notions for the properties of the whole class *)

(** One event of magnitude 5 whose record has no time. *)
Definition one_undated_event : Dataset :=
  from_records [<["eventID" := PStr "e1"]> (<["magnitude" := PFloat 5]> ∅)].

(** The table gap filling makes of a reduced table for the days [days]: the
    last three statements of [aggregate_daily]. *)
Definition fill_range (days : list Z) (result : DataFrame) : DataFrame :=
  let result := reindex days result in
  let result := if decide ("energy_J" ∈ columns result)
                then fillna "energy_J" (Float 0) result
                else result in
  set_column "event_count" (λ r, fill0_int (get r "event_count")) result.

(** The cell [to_dataframe] makes of the value [v] a record has for the
    canonical field [c]: a float for the numeric fields, an instant for
    [time], the value itself otherwise; null when the coercion fails. *)
Definition typed_cell (to_numeric : pyval → option R)
    (to_datetime : pyval → option Z) (c : string) (v : pyval) : cell :=
  if decide (c ∈ NUMERIC_FIELDS) then numeric_cell to_numeric (obj v)
  else if decide (c = "time") then time_cell to_datetime (obj v)
  else obj v.

(** [EarthquakeDataset.save] with the default keyword arguments.  The file
    system is not modelled: a call gives back the writes it makes, a write
    being the path, the format and the table handed to the pandas writer;
    errors of the writer are outside the model. *)
Inductive written := Written (path fmt : string) (df : DataFrame).

Definition save (to_numeric : pyval → option R)
    (to_datetime : pyval → option Z) (path fmt : string) (ds : Dataset)
    : outcome unit * Dataset * list written :=
  match to_dataframe to_numeric to_datetime ds with
  | (Return df, ds') =>
      if decide (fmt = "csv") then (Return tt, ds', [Written path "csv" df])
      else if decide (fmt = "json")
           then (Return tt, ds', [Written path "json" df])
      else (Raise (ValueError "fmt must be 'csv' or 'json'"), ds', [])
  | (Raise e, ds') => (Raise e, ds', [])
  end.

(** A call of a public method of the class, and the state it leaves, whether
    it returns or raises. *)
Inductive call :=
  | ToDataFrame
  | Save (path fmt : string)
  | Filter (f : filter_spec)
  | ConvertEnergy (a b : R) (out_col : string)
  | AggregateDaily (mode : string) (threshold : option R)
      (energy_col : string) (fill_empty_days : bool) (start end_ : option Z)
      (now : Z).

Definition run_call (to_numeric : pyval → option R)
    (to_datetime : pyval → option Z) (str_lower : string → string)
    (py_str : pyval → string) (c : call) (ds : Dataset) : Dataset :=
  match c with
  | ToDataFrame => (to_dataframe to_numeric to_datetime ds).2
  | Save path fmt => (save to_numeric to_datetime path fmt ds).1.2
  | Filter f => (apply_filter to_numeric to_datetime str_lower py_str f ds).2
  | ConvertEnergy a b out_col =>
      (convert_energy to_numeric to_datetime a b out_col ds).2
  | AggregateDaily mode threshold energy_col fill_empty_days start end_ now =>
      (aggregate_daily to_numeric to_datetime mode threshold energy_col
         fill_empty_days start end_ now ds).2
  end.

(** The state a request leaves: a new client holds the connection and the
    request is on record. *)
Definition requested (url : string) (params : gmap string pyval)
    (st : AfadAPI * Net) : AfadAPI * Net :=
  ({| base_url := base_url st.1; timeout := timeout st.1;
      _client := Some (Created (clients_created st.2)) |},
   {| requests := requests st.2
                  ++ [(Created (clients_created st.2), url, params)];
      clients_created := S (clients_created st.2);
      clients_closed := clients_closed st.2 |}).

(** A [with AfadAPI(...) as api:] block whose body fetches the given
    requests one after the other. *)
Definition with_block (send : nat → string → gmap string pyval → sent_reply)
    (body : list (string * gmap string pyval)) (st : AfadAPI * Net)
    : AfadAPI * Net :=
  __exit__ (foldl (λ s q, (_get_json send q.1 q.2 s).2) (__enter__ st) body).

(** * Properties *)

(** ** The normaliser *)

Lemma g_first_match r names : first_match r names (g r names).
Proof.
  induction names as [|n names IH]; simpl.
  - right. split; [constructor | reflexivity].
  - destruct (r !! n) as [v|] eqn:Hn.
    + left. exists [], n, names. repeat split; [constructor | exact Hn].
    + destruct IH as [(pre & k & post & -> & Hpre & Hk) | [Hall Hv]].
      * left. exists (n :: pre), k, post.
        repeat split; [constructor; assumption | exact Hk].
      * right. split; [constructor; assumption | exact Hv].
Qed.

Lemma first_match_absent r names v :
  Forall (λ n, r !! n = None) names → first_match r names v → v = PNone.
Proof.
  intros Hall [(pre & n & post & -> & _ & Hn) | [_ Hv]]; [|exact Hv].
  apply Forall_app in Hall as [_ Hall].
  apply Forall_cons in Hall as [Habs _]. congruence.
Qed.

Lemma aliases_fields : map fst ALIASES = CANONICAL_FIELDS.
Proof. reflexivity. Qed.

(** C9. Normalisation is a total function; its output has exactly the
    canonical fields, in the order of [CANONICAL_FIELDS]; the value of each
    field is the first-match-wins lookup of the field's alias list, hence
    [None] when no alias is a key of the record; a record without any
    recognised key gives [None] everywhere. *)
Theorem normalize_record_canonical (r : gmap string pyval) :
  map fst (_normalize_record r) = CANONICAL_FIELDS
  ∧ Forall2 (λ a o, a.1 = o.1 ∧ first_match r a.2 o.2)
      ALIASES (_normalize_record r)
  ∧ _normalize_record ∅ = map (λ f, (f, PNone)) CANONICAL_FIELDS.
Proof.
  split; [reflexivity|]. split; [|reflexivity].
  unfold ALIASES, _normalize_record.
  repeat (constructor; [split; [reflexivity | apply g_first_match]|]).
  constructor.
Qed.

(** ** The table builder *)

Lemma add_column_incl name cols (L : list string) :
  name ∈ L → cols ⊆ L → add_column name cols ⊆ L.
Proof.
  intros Hn Hc. unfold add_column. case_decide; [exact Hc|].
  intros c [Hin | Hin%list_elem_of_singleton]%elem_of_app; [auto | by subst].
Qed.

Lemma add_column_elem name cols : name ∈ add_column name cols.
Proof.
  unfold add_column. case_decide; [assumption|].
  apply elem_of_app. right. by apply list_elem_of_singleton.
Qed.

Lemma add_column_mono name c cols : c ∈ cols → c ∈ add_column name cols.
Proof.
  intros Hc. unfold add_column. case_decide; [exact Hc|].
  apply elem_of_app. by left.
Qed.

Lemma add_column_present name cols : name ∈ cols → add_column name cols = cols.
Proof. intros H. unfold add_column. by rewrite decide_True. Qed.

Lemma filter_outside_nil (L cols : list string) :
  cols ⊆ L → List.filter (λ c, bool_decide (c ∉ L)) cols = [].
Proof.
  induction cols as [|c cols IH]; intros Hsub; [reflexivity|]. simpl.
  rewrite bool_decide_eq_false_2.
  - apply IH. intros x Hx. apply Hsub. by right.
  - intros Hn. apply Hn, Hsub. by left.
Qed.

Lemma first_seen_incl (L : list string) dicts :
  Forall (λ d, map fst d ⊆ L) dicts → first_seen dicts ⊆ L.
Proof.
  unfold first_seen.
  assert (Hgen : ∀ acc : list string, acc ⊆ L →
            Forall (λ d : list (string * pyval), map fst d ⊆ L) dicts →
            foldl (λ acc d, foldl (λ a k, add_column k a) acc (map fst d))
              acc dicts ⊆ L).
  { induction dicts as [|d dicts IH]; intros acc Hacc Hall; [exact Hacc|].
    apply Forall_cons in Hall as [Hd Hall]. simpl. apply IH; [|exact Hall].
    clear IH Hall. revert acc Hacc.
    induction (map fst d) as [|k ks IHk]; intros acc Hacc; [exact Hacc|].
    simpl. apply IHk.
    - intros x Hx. apply Hd. by right.
    - apply add_column_incl; [|exact Hacc]. apply Hd. by left. }
  apply Hgen. intros x Hx. by apply elem_of_nil in Hx.
Qed.

Section BuildFacts.

Variable to_numeric : pyval → option R.
Variable to_datetime : pyval → option Z.

Lemma ensure_canonical_columns df :
  columns df ⊆ CANONICAL_FIELDS →
  columns (ensure_canonical df) ⊆ CANONICAL_FIELDS
  ∧ CANONICAL_FIELDS ⊆ columns (ensure_canonical df).
Proof.
  unfold ensure_canonical.
  assert (Hgen : ∀ (todo : list string) df,
            todo ⊆ CANONICAL_FIELDS → columns df ⊆ CANONICAL_FIELDS →
            let out := foldl (λ df col, if decide (col ∈ columns df) then df
                                        else set_column col (λ _, NA) df)
                         df todo in
            columns out ⊆ CANONICAL_FIELDS
            ∧ (∀ c, c ∈ todo ∨ c ∈ columns df → c ∈ columns out)).
  { induction todo as [|c todo IH]; intros df0 Htodo Hdf; simpl.
    - split; [exact Hdf|]. intros c [Hc|Hc]; [by apply elem_of_nil in Hc | exact Hc].
    - assert (Hc : c ∈ CANONICAL_FIELDS) by (apply Htodo; by left).
      assert (Htodo' : todo ⊆ CANONICAL_FIELDS)
        by (intros x Hx; apply Htodo; by right).
      case_decide as Hin.
      + destruct (IH df0 Htodo' Hdf) as [H1 H2]. split; [exact H1|].
        intros x [Hx|Hx]; [|by apply H2; right].
        apply elem_of_cons in Hx as [->|Hx]; apply H2; [by right | by left].
      + destruct (IH (set_column c (λ _, NA) df0) Htodo') as [H1 H2].
        { simpl. by apply add_column_incl. }
        split; [exact H1|].
        intros x [Hx|Hx].
        * apply elem_of_cons in Hx as [->|Hx]; apply H2;
            [right; simpl; apply add_column_elem | by left].
        * apply H2. right. simpl. by apply add_column_mono. }
  intros Hdf. destruct (Hgen CANONICAL_FIELDS df (λ x H, H) Hdf) as [H1 H2].
  split; [exact H1|]. intros c Hc. apply H2. by left.
Qed.

Lemma coerce_numeric_columns df :
  columns (coerce_numeric to_numeric df) = columns df.
Proof.
  unfold coerce_numeric. generalize NUMERIC_FIELDS as todo. intros todo.
  revert df. induction todo as [|c todo IH]; intros df; [reflexivity|]. simpl.
  case_decide as Hin; [|apply IH].
  rewrite IH. simpl. by apply add_column_present.
Qed.

Lemma parse_time_columns df :
  columns (parse_time to_datetime df) = columns df.
Proof.
  unfold parse_time. case_decide as Hin; [|reflexivity].
  simpl. by apply add_column_present.
Qed.

(** [to_dataframe] "ensures all canonical columns exist": the built table has
    exactly the canonical columns, in their declared order. *)
Lemma build_columns raw :
  columns (build to_numeric to_datetime raw) = CANONICAL_FIELDS.
Proof.
  unfold build, order_columns. cbn [columns].
  rewrite parse_time_columns, coerce_numeric_columns.
  rewrite filter_outside_nil; [apply app_nil_r|].
  apply ensure_canonical_columns. unfold DataFrame_of. cbn [columns].
  apply first_seen_incl.
  apply Forall_map, Forall_forall. intros r _. reflexivity.
Qed.

Lemma parse_time_length df :
  length (rows (parse_time to_datetime df)) = length (rows df).
Proof.
  unfold parse_time. case_decide; [|reflexivity]. apply length_map.
Qed.

Lemma coerce_numeric_length df :
  length (rows (coerce_numeric to_numeric df)) = length (rows df).
Proof.
  unfold coerce_numeric. generalize NUMERIC_FIELDS as todo. intros todo.
  revert df. induction todo as [|c todo IH]; intros df; [reflexivity|].
  cbn [foldl]. case_decide; [|apply IH]. rewrite IH. apply length_map.
Qed.

Lemma ensure_canonical_length df :
  length (rows (ensure_canonical df)) = length (rows df).
Proof.
  unfold ensure_canonical. generalize CANONICAL_FIELDS as todo. intros todo.
  revert df. induction todo as [|c todo IH]; intros df; [reflexivity|].
  cbn [foldl]. case_decide; [apply IH|]. rewrite IH. apply length_map.
Qed.

Lemma DataFrame_of_length dicts : length (rows (DataFrame_of dicts)) = length dicts.
Proof. unfold DataFrame_of. apply length_map. Qed.

Lemma order_columns_rows df : rows (order_columns df) = rows df.
Proof. reflexivity. Qed.

Lemma build_length raw :
  length (rows (build to_numeric to_datetime raw)) = length raw.
Proof.
  unfold build.
  rewrite order_columns_rows, parse_time_length, coerce_numeric_length,
    ensure_canonical_length, DataFrame_of_length.
  apply length_map.
Qed.

Lemma to_dataframe_current ds :
  to_dataframe to_numeric to_datetime ds
  = (Return (current to_numeric to_datetime ds),
     {| _raw := _raw ds; _df := Some (current to_numeric to_datetime ds) |}).
Proof.
  unfold to_dataframe, current. destruct ds as [raw [df|]]; reflexivity.
Qed.


End BuildFacts.

(** ** Configuration errors of [aggregate_daily] *)

Section ErrorFacts.

Variable to_numeric : pyval → option R.
Variable to_datetime : pyval → option Z.

Lemma require_column_present name df :
  name ∈ columns df → require_column name df = Return tt.
Proof. intros H. unfold require_column. by rewrite decide_True. Qed.

Lemma require_column_absent name df :
  name ∉ columns df → require_column name df = Raise (KeyError name).
Proof. intros H. unfold require_column. by rewrite decide_False. Qed.

Lemma aggregate_frame_config_error mode threshold energy_col fill start end_
    now df :
  "time" ∈ columns df →
  (mode = "daily_mag_threshold" ∧ threshold = None) ∨ mode ∉ MODES →
  ∃ msg, aggregate_frame to_numeric mode threshold energy_col fill start end_
           now df = Raise (ValueError msg).
Proof.
  intros Htime Hmode. unfold aggregate_frame.
  rewrite (require_column_present _ _ Htime).
  unfold mbind, outcome_bind, obind.
  destruct Hmode as [[-> ->] | Hnot].
  - rewrite decide_False by discriminate. rewrite decide_True by reflexivity.
    eexists. reflexivity.
  - rewrite !decide_False; [eexists; reflexivity | ..];
      intros ->; apply Hnot; unfold MODES; set_solver.
Qed.

(** C6. [aggregate_daily] in mode [daily_mag_threshold] without a threshold,
    and [aggregate_daily] with a mode string that is none of the five modes,
    raise a [ValueError]; the raw records are the same afterwards and the
    dataset's table is the table it had: no result, partial or not, is
    stored. *)
Theorem aggregate_daily_config_error mode threshold energy_col fill start end_
    now ds :
  "time" ∈ columns (current to_numeric to_datetime ds) →
  (mode = "daily_mag_threshold" ∧ threshold = None) ∨ mode ∉ MODES →
  ∃ msg ds',
    aggregate_daily to_numeric to_datetime mode threshold energy_col fill
      start end_ now ds = (Raise (ValueError msg), ds')
    ∧ _raw ds' = _raw ds
    ∧ current to_numeric to_datetime ds' = current to_numeric to_datetime ds
    ∧ to_dataframe to_numeric to_datetime ds'
      = (Return (current to_numeric to_datetime ds), ds').
Proof.
  intros Htime Hmode.
  destruct (aggregate_frame_config_error mode threshold energy_col fill start
              end_ now _ Htime Hmode) as [msg Hmsg].
  exists msg, {| _raw := _raw ds;
                 _df := Some (current to_numeric to_datetime ds) |}.
  split; [|repeat split].
  unfold aggregate_daily. rewrite decide_False.
  - unfold mbind, M_bind, bind. rewrite to_dataframe_current.
    unfold lift. rewrite Hmsg. reflexivity.
  - destruct Hmode as [[-> _] | Hnot]; [discriminate|].
    intros ->. apply Hnot. unfold MODES. set_solver.
Qed.

End ErrorFacts.

(** ** Filters *)

Lemma filter_filter_and {A} (p q : A → bool) (l : list A) :
  List.filter q (List.filter p l) = List.filter (λ x, p x && q x) l.
Proof.
  induction l as [|x l IH]; [reflexivity|]. simpl.
  destruct (p x); simpl; [destruct (q x)|]; by rewrite IH.
Qed.

Lemma filter_true {A} (l : list A) : List.filter (λ _, true) l = l.
Proof. induction l as [|x l IH]; [reflexivity|]. simpl. by rewrite IH. Qed.

Lemma filter_rows_filter_rows p q df :
  filter_rows q (filter_rows p df) = filter_rows (λ r, p r && q r) df.
Proof. unfold filter_rows. simpl. by rewrite filter_filter_and. Qed.

Lemma filter_rows_ext p q df :
  (∀ r, p r = q r) → filter_rows p df = filter_rows q df.
Proof.
  intros H. unfold filter_rows. f_equal. by apply List.filter_ext.
Qed.

Lemma filter_rows_comm p q df :
  filter_rows q (filter_rows p df) = filter_rows p (filter_rows q df).
Proof.
  rewrite !filter_rows_filter_rows. apply filter_rows_ext.
  intros r. apply andb_comm.
Qed.

Lemma between_in_range {A} (ge le : cell → A → bool) name lo hi df :
  between ge le name lo hi df
  = filter_rows (λ r, in_range ge le lo hi (get r name)) df.
Proof.
  unfold between, in_range. destruct lo as [x|], hi as [y|].
  - apply filter_rows_filter_rows.
  - apply filter_rows_ext. intros r. by rewrite andb_true_r.
  - reflexivity.
  - destruct df as [cols rs]. unfold filter_rows. simpl. by rewrite filter_true.
Qed.

Section FilterFacts.

Variable to_numeric : pyval → option R.
Variable to_datetime : pyval → option Z.
Variable str_lower : string → string.
Variable py_str : pyval → string.

#[local] Abbreviation current' := (current to_numeric to_datetime).
#[local] Abbreviation apply_filter' :=
  (apply_filter to_numeric to_datetime str_lower py_str).
#[local] Abbreviation keeps' := (keeps str_lower py_str).

(** What one filter call does to the state. *)
Lemma apply_filter_run f ds :
  apply_filter' f ds
  = if decide (tested_column f ∈ columns (current' ds))
    then (Return tt,
          {| _raw := _raw ds;
             _df := Some (filter_rows (keeps' f) (current' ds)) |})
    else (Raise (KeyError (tested_column f)),
          {| _raw := _raw ds; _df := Some (current' ds) |}).
Proof.
  destruct f; unfold apply_filter, filter_by_date, filter_by_magnitude,
    filter_by_depth, filter_by_mag_type, mbind, M_bind, bind;
    rewrite to_dataframe_current; cbn [tested_column keeps]; unfold lift;
    (case_decide as Hin;
     [rewrite (require_column_present _ _ Hin)
     |rewrite (require_column_absent _ _ Hin); reflexivity]);
    unfold set_df; cbn [_raw]; rewrite ?between_in_range; reflexivity.
Qed.

Lemma null_never_in_range f r :
  get r (tested_column f) = NA → keeps' f r = unbounded f.
Proof.
  intros Hna. destruct f as [[s|] [e|] | [a|] [b|] | [a|] [b|] | allowed ci];
    cbn [tested_column] in Hna; cbn [keeps unbounded];
    unfold in_range, mag_type_mask; rewrite ?Hna; reflexivity.
Qed.

(** C8. Two filter calls in a row, in either order: both chains return or
    both raise (a tested column is missing); when they return they leave the
    same table, which holds the rows of the current table that pass both
    tests, in table order.  A row whose tested cell is null passes a test
    only when the call gives no bound. *)
Theorem filters_commute (f1 f2 : filter_spec) (ds : Dataset) :
  let ab := (apply_filter' f1 ≫= λ _, apply_filter' f2) ds in
  let ba := (apply_filter' f2 ≫= λ _, apply_filter' f1) ds in
  (ab.1 = Return tt ↔ ba.1 = Return tt)
  ∧ (ab.1 = Return tt →
     ab.2 = ba.2
     ∧ current' ab.2
       = filter_rows (λ r, keeps' f1 r && keeps' f2 r) (current' ds))
  ∧ (∀ f r, get r (tested_column f) = NA → keeps' f r = unbounded f).
Proof.
  cbn zeta. unfold mbind, M_bind, bind. cbn beta.
  rewrite !(apply_filter_run _ ds).
  assert (Hcols : ∀ f raw, current'
            {| _raw := raw; _df := Some (filter_rows (keeps' f) (current' ds)) |}
          = filter_rows (keeps' f) (current' ds)) by reflexivity.
  destruct (decide (tested_column f1 ∈ columns (current' ds))) as [H1|H1];
    destruct (decide (tested_column f2 ∈ columns (current' ds))) as [H2|H2];
    cbv beta iota; rewrite ?apply_filter_run, ?Hcols;
    change (columns (filter_rows ?p ?d)) with (columns d);
    rewrite ?(decide_True _ _ H1), ?(decide_True _ _ H2),
      ?(decide_False _ _ H1), ?(decide_False _ _ H2); cbn [fst snd _raw].
  - split; [tauto|]. split; [|apply null_never_in_range].
    intros _. split.
    + f_equal. f_equal. apply (filter_rows_comm _ _ (current' ds)).
    + apply (filter_rows_filter_rows _ _ (current' ds)).
  - split; [split; discriminate|]. split; [discriminate|apply null_never_in_range].
  - split; [split; discriminate|]. split; [discriminate|apply null_never_in_range].
  - split; [split; discriminate|]. split; [discriminate|apply null_never_in_range].
Qed.

End FilterFacts.

(** ** Energy *)

Lemma canonical_present to_numeric to_datetime c raw :
  c ∈ CANONICAL_FIELDS →
  c ∈ columns (current to_numeric to_datetime (from_records raw)).
Proof. intros Hc. unfold current. cbn [_df from_records _raw]. by rewrite build_columns. Qed.

Lemma get_insert_eq (r : gmap string cell) name c : get (<[name := c]> r) name = c.
Proof. unfold get. by rewrite lookup_insert_eq. Qed.

Lemma get_insert_ne (r : gmap string cell) name name' c :
  name ≠ name' → get (<[name := c]> r) name' = get r name'.
Proof. intros H. unfold get. by rewrite lookup_insert_ne. Qed.

Section EnergyFacts.

Variable to_numeric : pyval → option R.
Variable to_datetime : pyval → option Z.

#[local] Abbreviation current' := (current to_numeric to_datetime).

Lemma energy_cell_float a b M :
  energy_cell to_numeric a b (Float M) = Float (Rpower 10 (a + b * M)).
Proof. reflexivity. Qed.

Lemma energy_cell_null a b : energy_cell to_numeric a b NA = NA.
Proof. reflexivity. Qed.

Lemma convert_energy_run a b out_col ds :
  "magnitude" ∈ columns (current' ds) →
  convert_energy to_numeric to_datetime a b out_col ds
  = (Return tt,
     {| _raw := _raw ds;
        _df := Some (set_column out_col
                       (λ r, energy_cell to_numeric a b (get r "magnitude"))
                       (current' ds)) |}).
Proof.
  intros Hmag. unfold convert_energy, mbind, M_bind, bind. cbn beta.
  rewrite to_dataframe_current. unfold lift, convert_energy_frame.
  rewrite (require_column_present _ _ Hmag). reflexivity.
Qed.

(** C4, as the code has it. [convert_energy] with the default constants
    returns; the table keeps its rows, in their order; in each row the output
    column holds 10^(1.44 + 5.24 M) when the magnitude M of the row is
    non-null and null otherwise; every other cell of the row is as before,
    so the magnitude column is unchanged unless the output column is
    [magnitude] itself; the output column keeps its place when it exists and
    is appended otherwise. *)
Theorem convert_energy_writes (out_col : string) (ds : Dataset) :
  "magnitude" ∈ columns (current' ds) →
  ∃ ds',
    convert_energy to_numeric to_datetime 1.44 5.24 out_col ds = (Return tt, ds')
    ∧ _raw ds' = _raw ds
    ∧ columns (current' ds') = add_column out_col (columns (current' ds))
    ∧ Forall2 (λ r r',
         get r' out_col = energy_cell to_numeric 1.44 5.24 (get r "magnitude")
         ∧ ∀ c, c ≠ out_col → r' !! c = r !! c)
        (rows (current' ds)) (rows (current' ds'))
    ∧ (∀ M, energy_cell to_numeric 1.44 5.24 (Float M)
            = Float (Rpower 10 (1.44 + 5.24 * M)))
    ∧ energy_cell to_numeric 1.44 5.24 NA = NA.
Proof.
  intros Hmag. eexists. split; [by apply convert_energy_run|].
  split; [reflexivity|]. split; [reflexivity|].
  split; [|split; [intros M; apply energy_cell_float | apply energy_cell_null]].
  unfold current at 2. cbn [_df set_column rows].
  induction (rows (current' ds)) as [|r rs IH]; [constructor|].
  cbn [map]. constructor; [|exact IH]. split.
  - apply get_insert_eq.
  - intros c Hc. by rewrite lookup_insert_ne.
Qed.

End EnergyFacts.

Lemma one_quiet_event_magnitudes :
  map (λ r, get r "magnitude")
    (rows (current plain_numeric plain_datetime one_quiet_event))
  = [Float 0].
Proof. vm_compute. reflexivity. Qed.

(** The claim C4 as it is written fails: written to the column [magnitude],
    the energy replaces the magnitudes. *)
Lemma convert_energy_alters_magnitude :
  ∃ ds',
    convert_energy plain_numeric plain_datetime 1.44 5.24 "magnitude"
      one_quiet_event = (Return tt, ds')
    ∧ map (λ r, get r "magnitude")
        (rows (current plain_numeric plain_datetime ds'))
      ≠ map (λ r, get r "magnitude")
          (rows (current plain_numeric plain_datetime one_quiet_event)).
Proof.
  eexists. split.
  - apply convert_energy_run. apply canonical_present.
    unfold CANONICAL_FIELDS. set_solver.
  - unfold current at 1. cbn [_df set_column rows].
    rewrite map_map.
    rewrite (map_ext _ (λ r, energy_cell plain_numeric 1.44 5.24
                               (get r "magnitude")))
      by (intros r; apply get_insert_eq).
    rewrite <- (map_map (λ r, get r "magnitude")
                  (energy_cell plain_numeric 1.44 5.24)).
    rewrite one_quiet_event_magnitudes. cbn [map]. rewrite energy_cell_float.
    intros [= H]. pose proof (exp_pos ((1.44 + 5.24 * 0) * ln 10)) as Hpos.
    unfold Rpower in H. rewrite H in Hpos. lra.
Qed.

Lemma convert_energy_writes_witness :
  "magnitude" ∈ columns (current plain_numeric plain_datetime one_quiet_event)
  ∧ ∃ ds',
      convert_energy plain_numeric plain_datetime 1.44 5.24 "energy_J"
        one_quiet_event = (Return tt, ds')
      ∧ _raw ds' = _raw one_quiet_event
      ∧ columns (current plain_numeric plain_datetime ds')
        = add_column "energy_J"
            (columns (current plain_numeric plain_datetime one_quiet_event))
      ∧ Forall2 (λ r r',
           get r' "energy_J"
           = energy_cell plain_numeric 1.44 5.24 (get r "magnitude")
           ∧ ∀ c, c ≠ "energy_J" → r' !! c = r !! c)
          (rows (current plain_numeric plain_datetime one_quiet_event))
          (rows (current plain_numeric plain_datetime ds'))
      ∧ (∀ M, energy_cell plain_numeric 1.44 5.24 (Float M)
              = Float (Rpower 10 (1.44 + 5.24 * M)))
      ∧ energy_cell plain_numeric 1.44 5.24 NA = NA.
Proof.
  assert (H : "magnitude" ∈ columns
                (current plain_numeric plain_datetime one_quiet_event)).
  { apply canonical_present. unfold CANONICAL_FIELDS. set_solver. }
  split; [exact H|].
  exact (convert_energy_writes plain_numeric plain_datetime "energy_J"
           one_quiet_event H).
Defined.

(** ** Daily aggregation on sample inputs *)

Lemma current_plain_eq ds : current_plain ds = current plain_numeric plain_datetime ds.
Proof. reflexivity. Qed.

(** C1 at a failing input. The table has one row, of day 0 and magnitude 5,
    whose [event_id] is null.  [daily_max_mag] selects it and sets its time
    to 00:00 of day 0, but attaches [event_count] 0: [count] counts the
    non-null ids of the day, not its rows. *)
Lemma daily_max_mag_counts_ids_not_rows :
  observe ["time"; "magnitude"; "event_id"] (Return tt, one_anonymous_event)
  = (Return tt, [[Stamp 36000; Float 5; NA]])
  ∧ observe ["time"; "magnitude"; "event_id"; "event_count"]
      (aggregate_daily plain_numeric plain_datetime "daily_max_mag" None
         "energy_J" false None None 0 one_anonymous_event)
    = (Return tt, [[Stamp 0; Float 5; NA; Count 0]]).
Proof. split; vm_compute; reflexivity. Qed.

(** The same with two days and gap filling over days 0 to 2, the second
    scenario of the specification without its second event: the days with an
    event have [event_count] 0, as the day without one. *)
Lemma daily_max_mag_filled_counts :
  observe ["time"; "magnitude"; "event_count"]
    (aggregate_daily plain_numeric plain_datetime "daily_max_mag" None
       "energy_J" true (Some 0%Z) (Some 172800%Z) 0 two_anonymous_days)
  = (Return tt, [[Stamp 0; Float 5; Count 0];
                 [Stamp 86400; NA; Count 0];
                 [Stamp 172800; Float 3; Count 0]]).
Proof. vm_compute. reflexivity. Qed.

(** C7 at a failing input. The only row of day 0 has a null magnitude:
    [daily_max_mag] raises, and the table stays the one that was built. *)
Lemma daily_max_mag_raises_on_null_day :
  observe ["time"; "magnitude"]
    (aggregate_daily plain_numeric plain_datetime "daily_max_mag" None
       "energy_J" false None None 0 one_unmeasured_event)
  = (Raise (KeyError "nan"), [[Stamp 36000; NA]]).
Proof. vm_compute. reflexivity. Qed.

(** C5 at a failing input. [daily_energy_sum] on the one event without an id
    gives one row for day 0 with the energy of the event and its magnitude,
    and with [event_count] 0. *)
Lemma daily_energy_sum_counts_ids_not_rows :
  observe ["time"; "energy_J"; "event_count"; "magnitude"]
    (aggregate_daily plain_numeric plain_datetime "daily_energy_sum" None
       "energy_J" false None None 0 one_anonymous_event)
  = (Return tt,
     [[Stamp 0; Float (Rpower 10 (1.44 + 5.24 * 5) + 0); Count 0; Float 5]]).
Proof. vm_compute. reflexivity. Qed.

(** The same in mode [daily_energy_max]. *)
Lemma daily_energy_max_counts_ids_not_rows :
  observe ["time"; "energy_J"; "event_count"; "magnitude"]
    (aggregate_daily plain_numeric plain_datetime "daily_energy_max" None
       "energy_J" false None None 0 one_anonymous_event)
  = (Return tt,
     [[Stamp 0; Float (Rpower 10 (1.44 + 5.24 * 5)); Count 0; Float 5]]).
Proof. vm_compute. reflexivity. Qed.


(** ** Groups and arg-max *)

Lemma insert_key_elem x d l : x ∈ insert_key d l ↔ x = d ∨ x ∈ l.
Proof.
  induction l as [|y l IH]; simpl.
  - rewrite list_elem_of_singleton, elem_of_nil. tauto.
  - destruct (Z.ltb_spec d y); [by rewrite elem_of_cons|].
    destruct (Z.eqb_spec d y) as [->|Hne].
    + rewrite elem_of_cons. tauto.
    + rewrite !elem_of_cons, IH. tauto.
Qed.

Lemma insert_key_sorted d l :
  StronglySorted Z.lt l → StronglySorted Z.lt (insert_key d l).
Proof.
  induction 1 as [|y l Hs IH Hall]; simpl.
  - repeat constructor.
  - destruct (Z.ltb_spec d y) as [Hlt|Hge].
    + constructor; [by constructor|]. constructor; [exact Hlt|].
      eapply Forall_impl; [exact Hall|]. intros z Hz. simpl in Hz. lia.
    + destruct (Z.eqb_spec d y) as [->|Hne]; [by constructor|].
      constructor; [exact IH|]. apply Forall_forall. intros z Hz.
      apply insert_key_elem in Hz as [->|Hz]; [lia|].
      rewrite Forall_forall in Hall. by apply Hall.
Qed.

Lemma group_keys_sorted rs : StronglySorted Z.lt (group_keys rs).
Proof.
  unfold group_keys. induction (omap day_of rs) as [|d l IH]; simpl.
  - constructor.
  - by apply insert_key_sorted.
Qed.

Lemma group_keys_elem d rs :
  d ∈ group_keys rs ↔ ∃ r, r ∈ rs ∧ day_of r = Some d.
Proof.
  unfold group_keys. rewrite <- list_elem_of_omap.
  induction (omap day_of rs) as [|x l IH]; simpl.
  - reflexivity.
  - rewrite insert_key_elem, IH, elem_of_cons. reflexivity.
Qed.

Lemma Rltb_lt x y : Rltb x y = true ↔ (x < y)%R.
Proof. unfold Rltb. destruct (Rlt_dec x y); split; auto; discriminate. Qed.

Lemma Rleb_le x y : Rleb x y = true ↔ (x <= y)%R.
Proof. unfold Rleb. destruct (Rle_dec x y); split; auto; discriminate. Qed.

Lemma idxmax_from_first_max key pre best m l :
  first_max key pre best → key best = Some m →
  first_max key (pre ++ l) (idxmax_from key best m l).
Proof.
  revert pre best m. induction l as [|r l IH]; intros pre best m Hfm Hm; simpl.
  - by rewrite app_nil_r.
  - replace (pre ++ r :: l) with ((pre ++ [r]) ++ l)
      by (by rewrite <- app_assoc).
    destruct Hfm as (i & m0 & Hi & Hm0 & Hmax).
    assert (m0 = m) as -> by congruence.
    assert (Hlt : i < length pre) by (by eapply lookup_lt_Some).
    destruct (key r) as [x|] eqn:Hx.
    + destruct (Rltb m x) eqn:Hcmp.
      * apply Rltb_lt in Hcmp. apply IH; [|exact Hx].
        exists (length pre), x. split; [|split; [exact Hx|]].
        { rewrite lookup_app_r by lia. by rewrite Nat.sub_diag. }
        intros j r' m' Hj Hm'.
        destruct (decide (j < length pre)) as [Hjl|Hjl].
        -- rewrite lookup_app_l in Hj by exact Hjl.
           destruct (Hmax j r' m' Hj Hm') as [Hle _].
           split; [|intros _]; lra.
        -- apply lookup_lt_Some in Hj as Hj'.
           rewrite length_app in Hj'. simpl in Hj'.
           assert (j = length pre) as -> by lia.
           rewrite lookup_app_r, Nat.sub_diag in Hj by lia.
           injection Hj as <-. assert (m' = x) as -> by congruence.
           split; [lra | lia].
      * assert (Hnlt : ¬ (m < x)%R).
        { intros Hc. apply Rltb_lt in Hc. congruence. }
        apply IH; [|exact Hm].
        exists i, m. split; [|split; [exact Hm|]].
        { by rewrite lookup_app_l. }
        intros j r' m' Hj Hm'.
        destruct (decide (j < length pre)) as [Hjl|Hjl].
        -- rewrite lookup_app_l in Hj by exact Hjl. by apply (Hmax j r').
        -- apply lookup_lt_Some in Hj as Hj'.
           rewrite length_app in Hj'. simpl in Hj'.
           assert (j = length pre) as -> by lia.
           rewrite lookup_app_r, Nat.sub_diag in Hj by lia.
           injection Hj as <-. assert (m' = x) as -> by congruence.
           split; [lra | lia].
    + apply IH; [|exact Hm].
      exists i, m. split; [|split; [exact Hm|]].
      { by rewrite lookup_app_l. }
      intros j r' m' Hj Hm'.
      destruct (decide (j < length pre)) as [Hjl|Hjl].
      -- rewrite lookup_app_l in Hj by exact Hjl. by apply (Hmax j r').
      -- apply lookup_lt_Some in Hj as Hj'.
         rewrite length_app in Hj'. simpl in Hj'.
         assert (j = length pre) as -> by lia.
         rewrite lookup_app_r, Nat.sub_diag in Hj by lia.
         injection Hj as <-. congruence.
Qed.

Lemma idxmax_first_max key l r : idxmax key l = Some r → first_max key l r.
Proof.
  induction l as [|r0 l IH]; simpl; [discriminate|].
  destruct (key r0) as [m|] eqn:Hm.
  - intros [= <-]. apply (idxmax_from_first_max key [r0] r0 m l); [|exact Hm].
    exists 0, m. split; [reflexivity|]. split; [exact Hm|].
    intros [|j] r' m' Hj Hm'; [|discriminate].
    injection Hj as <-. assert (m' = m) as -> by congruence.
    split; [lra | lia].
  - intros Hr. destruct (IH Hr) as (i & m & Hi & Hkm & Hmax).
    exists (S i), m. split; [exact Hi|]. split; [exact Hkm|].
    intros [|j] r' m' Hj Hm'.
    + injection Hj as <-. congruence.
    + destruct (Hmax j r' m' Hj Hm') as [Hle Hlt]. split; [exact Hle|].
      intros Hji. apply Hlt. lia.
Qed.

Lemma idxmax_none key l :
  idxmax key l = None ↔ Forall (λ r, key r = None) l.
Proof.
  induction l as [|r0 l IH]; simpl.
  - split; [constructor | reflexivity].
  - destruct (key r0) as [m|] eqn:Hm.
    + split; [discriminate|]. intros H. apply Forall_cons in H as [H _].
      congruence.
    + rewrite IH. split; [by constructor | by intros [_ H]%Forall_cons].
Qed.

Lemma idxmax_from_map key key' (f : gmap string cell → gmap string cell)
    best m l :
  (∀ r, key (f r) = key' r) →
  idxmax_from key (f best) m (map f l) = f (idxmax_from key' best m l).
Proof.
  intros Hk. revert best m. induction l as [|r l IH]; intros best m; simpl;
    [reflexivity|].
  rewrite Hk. destruct (key' r) as [x|]; [|apply IH].
  destruct (Rltb m x); apply IH.
Qed.

Lemma idxmax_map key key' (f : gmap string cell → gmap string cell) l :
  (∀ r, key (f r) = key' r) →
  idxmax key (map f l) = f <$> idxmax key' l.
Proof.
  intros Hk. induction l as [|r l IH]; simpl; [reflexivity|].
  rewrite Hk. destruct (key' r) as [m|]; [|exact IH].
  simpl. f_equal. by apply idxmax_from_map.
Qed.

Lemma filter_map {A B} (p : B → bool) (f : A → B) l :
  List.filter p (map f l) = map f (List.filter (λ x, p (f x)) l).
Proof.
  induction l as [|x l IH]; [reflexivity|]. simpl.
  destruct (p (f x)); simpl; by rewrite IH.
Qed.

Lemma elem_of_filter_bool {A} (p : A → bool) (l : list A) x :
  x ∈ List.filter p l ↔ x ∈ l ∧ p x = true.
Proof. rewrite !list_elem_of_In. apply filter_In. Qed.

Lemma day_of_annotate r : day_of (annotate r) = day r.
Proof. unfold day_of, annotate, day. by rewrite get_insert_eq. Qed.

Lemma get_annotate r c : c ≠ "__day" → get (annotate r) c = get r c.
Proof. intros Hc. unfold annotate. by rewrite get_insert_ne. Qed.

Lemma magnitude_of_annotate r : magnitude_of (annotate r) = magnitude_of r.
Proof. unfold magnitude_of. by rewrite get_annotate. Qed.

Lemma group_annotate d l :
  group d (map annotate l) = map annotate (List.filter (on_day d) l).
Proof.
  unfold group. rewrite filter_map. f_equal. apply List.filter_ext.
  intros r. unfold on_day. by rewrite day_of_annotate.
Qed.

Lemma group_keys_annotate d l :
  d ∈ group_keys (map annotate l) ↔ ∃ r, r ∈ l ∧ day r = Some d.
Proof.
  rewrite group_keys_elem. split.
  - intros (r' & Hin & Hd). apply list_elem_of_fmap in Hin as (r & -> & Hin).
    exists r. by rewrite <- day_of_annotate.
  - intros (r & Hin & Hd). exists (annotate r).
    split; [by apply list_elem_of_fmap_2 | by rewrite day_of_annotate].
Qed.

(** The table the reduction works on. *)
Lemma windowed_rows start end_ df :
  rows (between ge_stamp le_stamp "__day" (floor_day <$> start)
          (floor_day <$> end_)
          (set_column "__day" (λ r, day_cell (get r "time")) df))
  = map annotate (List.filter (in_window start end_) (rows df)).
Proof.
  rewrite between_in_range. unfold filter_rows, set_column. cbn [rows].
  change (map (λ r, <["__day" := day_cell (get r "time")]> r) (rows df))
    with (map annotate (rows df)).
  rewrite filter_map. f_equal. apply List.filter_ext. intros r.
  unfold in_window, annotate. by rewrite get_insert_eq.
Qed.

Lemma windowed_columns start end_ df :
  columns (between ge_stamp le_stamp "__day" (floor_day <$> start)
             (floor_day <$> end_)
             (set_column "__day" (λ r, day_cell (get r "time")) df))
  = add_column "__day" (columns df).
Proof. rewrite between_in_range. reflexivity. Qed.

Lemma finish_pick_annotate d n r :
  day r = Some d → finish_pick n (annotate r) = restamp d n r.
Proof.
  intros Hd. unfold finish_pick, restamp.
  assert (Hday : get (annotate r) "__day" = Stamp d).
  { unfold annotate. rewrite get_insert_eq. unfold day in Hd.
    destruct (day_cell (get r "time")); try discriminate. simpl in Hd.
    congruence. }
  rewrite Hday. unfold annotate. apply map_eq. intros c.
  destruct (decide (c = "__day")) as [->|Hc1].
  - rewrite lookup_delete_eq, !lookup_insert_ne by discriminate.
    by rewrite lookup_delete_eq.
  - rewrite lookup_delete_ne by congruence.
    destruct (decide (c = "time")) as [->|Hc2].
    { by rewrite !lookup_insert_eq. }
    rewrite !(lookup_insert_ne _ "time") by congruence.
    destruct (decide (c = "event_count")) as [->|Hc3].
    { by rewrite !lookup_insert_eq. }
    rewrite !(lookup_insert_ne _ "event_count") by congruence.
    rewrite lookup_insert_ne by congruence.
    by rewrite lookup_delete_ne by congruence.
Qed.

Lemma pick_idxmax_annotate d l :
  pick_idxmax (d, group d (map annotate l))
  = match idxmax magnitude_of (List.filter (on_day d) l) with
    | Some r => Return (d, annotate r)
    | None => Raise (KeyError "nan")
    end.
Proof.
  unfold pick_idxmax. cbn [fst snd].
  rewrite group_annotate,
    (idxmax_map magnitude_of magnitude_of annotate _ magnitude_of_annotate).
  by destruct (idxmax magnitude_of (List.filter (on_day d) l)).
Qed.

Lemma traverse_pick_annotated (l : list (gmap string cell)) (ks : list Z) :
  (∀ d, d ∈ ks → idxmax magnitude_of (List.filter (on_day d) l) ≠ None) →
  ∃ picks : list (Z * gmap string cell),
    traverse pick_idxmax (map (λ d, (d, group d (map annotate l))) ks)
    = Return (map (λ p, (p.1, annotate p.2)) picks)
    ∧ map fst picks = ks
    ∧ Forall (λ p, idxmax magnitude_of (List.filter (on_day p.1) l) = Some p.2)
        picks.
Proof.
  induction ks as [|d ks IH]; intros Hok.
  - exists []. repeat split; constructor.
  - destruct IH as (picks & Htr & Hfst & Hall).
    { intros d' Hd'. apply Hok. by right. }
    destruct (idxmax magnitude_of (List.filter (on_day d) l)) as [r|] eqn:Hr.
    2:{ exfalso. eapply Hok; [by left | exact Hr]. }
    exists ((d, r) :: picks). split; [|split].
    + cbn [map traverse]. rewrite pick_idxmax_annotate, Hr, Htr. reflexivity.
    + cbn [map fst]. by rewrite Hfst.
    + constructor; [exact Hr | exact Hall].
Qed.

(** A group with a non-null magnitude has a label; one without has none, and
    the reduction raises. *)
Lemma traverse_pick_raises (l : list (gmap string cell)) (ks : list Z) :
  (∃ d, d ∈ ks ∧ idxmax magnitude_of (List.filter (on_day d) l) = None) →
  traverse pick_idxmax (map (λ d, (d, group d (map annotate l))) ks)
  = Raise (KeyError "nan").
Proof.
  induction ks as [|d ks IH]; intros (d' & Hin & Hnone).
  - by apply elem_of_nil in Hin.
  - cbn [map traverse]. rewrite pick_idxmax_annotate.
    destruct (idxmax magnitude_of (List.filter (on_day d) l)) as [r|] eqn:Hr.
    + rewrite IH; [reflexivity|].
      apply elem_of_cons in Hin as [->|Hin]; [congruence|]. by exists d'.
    + reflexivity.
Qed.

(** ** The arg-max modes *)

Section ReduceFacts.

Variable to_numeric : pyval → option R.
Variable to_datetime : pyval → option Z.

#[local] Abbreviation current' := (current to_numeric to_datetime).

Lemma aggregate_daily_run mode threshold energy_col fill start end_ now ds :
  mode ≠ "all_events" →
  aggregate_daily to_numeric to_datetime mode threshold energy_col fill start
    end_ now ds
  = match aggregate_frame to_numeric mode threshold energy_col fill start end_
            now (current' ds) with
    | Return result => (Return tt, {| _raw := _raw ds; _df := Some result |})
    | Raise e => (Raise e, {| _raw := _raw ds; _df := Some (current' ds) |})
    end.
Proof.
  intros Hmode. unfold aggregate_daily. rewrite decide_False by exact Hmode.
  unfold mbind, M_bind, bind. cbn beta. rewrite to_dataframe_current.
  unfold lift. by destruct (aggregate_frame _ _ _ _ _ _ _ _ _).
Qed.

Lemma qualifies_annotate th r :
  ge_float (get (annotate r) "magnitude") th = qualifies th r.
Proof. unfold qualifies. by rewrite get_annotate. Qed.

Lemma qualifies_magnitude th r : qualifies th r = true → magnitude_of r ≠ None.
Proof.
  unfold qualifies, ge_float, magnitude_of.
  by destruct (float_of (get r "magnitude")).
Qed.

(** The reduction of [daily_mag_threshold] on the windowed rows [W]. *)
Lemma daily_mag_threshold_rows th (df' : DataFrame) W :
  "magnitude" ∈ columns df' → "event_id" ∈ columns df' →
  rows df' = map annotate W →
  ∃ res (picks : list (Z * gmap string cell)),
    daily_mag_threshold (Some th) df' = Return res
    ∧ rows res
      = map (λ p, restamp p.1 (size (List.filter (on_day p.1) W)) p.2) picks
    ∧ map fst picks
      = group_keys (map annotate (List.filter (qualifies th) W))
    ∧ Forall (λ p, idxmax magnitude_of
                     (List.filter (on_day p.1) (List.filter (qualifies th) W))
                   = Some p.2) picks.
Proof.
  intros Hmag Hid Hrows. unfold daily_mag_threshold.
  rewrite (require_column_present _ _ Hmag).
  unfold mbind at 1, outcome_bind, obind. cbv zeta.
  set (Q := List.filter (qualifies th) W).
  assert (Hsub : rows (filter_rows (λ r, ge_float (get r "magnitude") th) df')
                 = map annotate Q).
  { unfold filter_rows. cbn [rows]. rewrite Hrows, filter_map. f_equal.
    apply List.filter_ext. intros r. apply qualifies_annotate. }
  rewrite Hsub.
  destruct (map annotate Q) as [|r0 rest] eqn:HQ.
  - eexists _, []. split; [reflexivity|]. split; [exact Hsub|].
    split; [|constructor]. reflexivity.
  - rewrite <- HQ.
    destruct (traverse_pick_annotated Q (group_keys (map annotate Q)))
      as (picks & Htr & Hfst & Hall).
    { intros d Hd Hnone. apply group_keys_annotate in Hd as (r & Hin & Hday).
      apply idxmax_none in Hnone. rewrite Forall_forall in Hnone.
      assert (Hq : qualifies th r = true).
      { unfold Q in Hin. by apply elem_of_filter_bool in Hin as [_ ?]. }
      apply (qualifies_magnitude th r Hq). apply Hnone.
      apply elem_of_filter_bool. split; [exact Hin|].
      unfold on_day. by apply bool_decide_eq_true. }
    unfold groupby. rewrite Htr. unfold mbind at 1, outcome_bind, obind.
    rewrite (require_column_present _ _ Hid).
    unfold mbind, outcome_bind, obind.
    eexists _, picks. split; [reflexivity|]. cbn [rows].
    split; [|split; [exact Hfst | exact Hall]].
    rewrite map_map. apply map_ext_in. intros [d r] Hin. cbn [fst snd].
    apply list_elem_of_In in Hin.
    rewrite Forall_forall in Hall. specialize (Hall _ Hin). cbn [fst snd] in Hall.
    apply idxmax_first_max in Hall as (i & m & Hi & _).
    apply list_elem_of_lookup_2, elem_of_filter_bool in Hi as [_ Hday].
    unfold on_day in Hday. apply bool_decide_eq_true in Hday.
    rewrite (finish_pick_annotate d _ r Hday). f_equal.
    rewrite Hrows, group_annotate. unfold size. by rewrite length_map.
Qed.


End ReduceFacts.

(** ** Gap filling *)

Lemma floor_day_multiple t : ∃ a, floor_day t = (86400 * a)%Z.
Proof. by exists (t / 86400)%Z. Qed.

Lemma floor_day_idem t : floor_day (floor_day t) = floor_day t.
Proof.
  unfold floor_day. f_equal.
  rewrite (Z.mul_comm 86400), Z.div_mul; [reflexivity | discriminate].
Qed.

Lemma floor_day_le t : (floor_day t <= t)%Z.
Proof. unfold floor_day. apply Z.mul_div_le. reflexivity. Qed.

Lemma floor_day_mono s t : (s <= t)%Z → (floor_day s <= floor_day t)%Z.
Proof.
  intros H. unfold floor_day. apply Z.mul_le_mono_nonneg_l; [discriminate|].
  apply Z.div_le_mono; [reflexivity | exact H].
Qed.

Lemma day_span a b : ((86400 * b - 86400 * a) / 86400 = b - a)%Z.
Proof.
  rewrite <- Z.mul_sub_distr_l, (Z.mul_comm 86400 (b - a)).
  apply Z.div_mul. discriminate.
Qed.

Lemma date_range_length a b :
  (a <= b)%Z →
  length (date_range (86400 * a) (86400 * b)) = Z.to_nat (b - a + 1).
Proof.
  intros Hab. unfold date_range. rewrite length_map, length_seq.
  by rewrite day_span.
Qed.

Lemma date_range_elem a b d :
  d ∈ date_range (86400 * a) (86400 * b)
  ↔ ∃ k, d = (86400 * k)%Z ∧ (a <= k <= b)%Z.
Proof.
  unfold date_range. rewrite day_span.
  rewrite list_elem_of_In, in_map_iff. split.
  - intros (k & <- & Hk). apply in_seq in Hk. exists (a + Z.of_nat k)%Z.
    split; lia.
  - intros (k & -> & Hk). exists (Z.to_nat (k - a)). split; [lia|].
    apply in_seq. lia.
Qed.

Lemma date_range_sorted s e : StronglySorted Z.lt (date_range s e).
Proof.
  unfold date_range. generalize (Z.to_nat ((e - s) / 86400 + 1)) as n.
  intros n. generalize 0 as i. induction n as [|n IH]; intros i; simpl.
  - constructor.
  - constructor; [apply IH|]. apply Forall_forall. intros d Hd.
    apply list_elem_of_In, in_map_iff in Hd as (k & <- & Hk).
    apply in_seq in Hk. lia.
Qed.

(** The days of the range are the day starts from the day of [s] to the day
    of [e]. *)
Lemma date_range_days s e d :
  d ∈ date_range (floor_day s) (floor_day e)
  ↔ floor_day d = d ∧ (floor_day s <= d <= floor_day e)%Z.
Proof.
  unfold floor_day at 1 2. rewrite date_range_elem. split.
  - intros (k & -> & Hk). split.
    + unfold floor_day. f_equal.
      rewrite (Z.mul_comm 86400), Z.div_mul; [reflexivity | discriminate].
    + unfold floor_day. lia.
  - intros [Hd Hr]. exists (d / 86400)%Z. split; [by rewrite <- Hd at 1|].
    unfold floor_day in Hr, Hd. lia.
Qed.

Lemma stamp_of_Some c d : stamp_of c = Some d → c = Stamp d.
Proof. destruct c; simpl; congruence. Qed.

Lemma get_delete_ne (r : gmap string cell) name name' :
  name ≠ name' → get (delete name r) name' = get r name'.
Proof. intros H. unfold get. by rewrite lookup_delete_ne. Qed.

Lemma get_na_row cols c : get (na_row cols) c = NA.
Proof.
  unfold get, na_row.
  destruct (list_to_map (map (λ c, (c, NA)) cols) !! c) as [v|] eqn:Hv;
    [|reflexivity].
  apply elem_of_list_to_map_2, list_elem_of_fmap in Hv as (x & Hx & _).
  by injection Hx as _ ->.
Qed.

Lemma sorted_NoDup (l : list Z) : StronglySorted Z.lt l → NoDup l.
Proof.
  induction 1 as [|x l Hs IH Hall]; constructor; [|exact IH].
  intros Hin. rewrite Forall_forall in Hall. specialize (Hall _ Hin). lia.
Qed.

(** Rows of a table are told apart by a column whose cells are distinct. *)
Lemma distinct_cells {A B} (f : A → B) (l : list A) x y :
  NoDup (map f l) → x ∈ l → y ∈ l → f x = f y → x = y.
Proof.
  induction l as [|a l IH]; intros Hnd Hx Hy Hxy.
  - by apply elem_of_nil in Hx.
  - cbn [map] in Hnd. apply NoDup_cons in Hnd as [Ha Hnd].
    apply elem_of_cons in Hx as [->|Hx]; apply elem_of_cons in Hy as [->|Hy].
    + reflexivity.
    + exfalso. apply Ha. rewrite Hxy. by apply (list_elem_of_fmap_2 f).
    + exfalso. apply Ha. rewrite <- Hxy. by apply (list_elem_of_fmap_2 f).
    + by apply IH.
Qed.

(** Reading a cell of a row that was written to. *)
Ltac read_cells :=
  repeat match goal with
    | |- context [get (<[?a := ?v]> ?r) ?a] => rewrite (get_insert_eq r a v)
    | |- context [get (<[?a := ?v]> ?r) ?b] =>
        rewrite (get_insert_ne r a b v) by discriminate
    | |- context [get (delete ?a ?r) ?b] =>
        rewrite (get_delete_ne r a b) by discriminate
    | |- context [get (na_row ?c) ?b] => rewrite (get_na_row c b)
    end.

(** The gap filling between two given bounds: it returns on a table with a
    [time] column, and its rows stand for the days of the range, one by one:
    the row of a day is the first row of the table with this day when there
    is one, its [event_count] cast to an integer, and otherwise a row of
    nulls with [event_count] 0 and, when the table has the column, [energy_J]
    0. *)
Lemma fill_days_bounded s e now df res :
  "time" ∈ columns res →
  ∃ out,
    fill_days (Some s) (Some e) now df res = Return out
    ∧ Forall2 (λ d r,
         get r "time" = Stamp d
         ∧ match List.find (λ r0, bool_decide (stamp_of (get r0 "time") = Some d))
                   (rows res) with
           | Some r0 => get r "magnitude" = get r0 "magnitude"
                        ∧ get r "event_count" = fill0_int (get r0 "event_count")
           | None => get r "event_count" = Count 0
                     ∧ get r "magnitude" = NA
                     ∧ ("energy_J" ∈ columns out → get r "energy_J" = Float 0)
           end)
        (date_range (floor_day s) (floor_day e)) (rows out).
Proof.
  intros Htime. eexists. split.
  { unfold fill_days, mbind, outcome_bind, obind. cbv beta iota zeta.
    rewrite (require_column_present _ _ Htime). reflexivity. }
  set (days := date_range (floor_day s) (floor_day e)).
  destruct (decide ("energy_J" ∈ columns (reindex days res))) as [He|He].
  - unfold set_column, fillna, reindex. cbn [rows columns].
    rewrite !map_map. apply Forall2_fmap_r, Forall_Forall2_diag, Forall_forall.
    intros d _. unfold compose. cbn beta.
    destruct (List.find _ (rows res)) as [r0|] eqn:Hfind.
    + apply find_some in Hfind as [_ Hd%bool_decide_eq_true%stamp_of_Some].
      destruct (notna (get r0 "energy_J")); read_cells; done.
    + read_cells. cbn [notna]. read_cells. done.
  - unfold set_column, reindex. cbn [rows columns].
    rewrite !map_map. apply Forall2_fmap_r, Forall_Forall2_diag, Forall_forall.
    intros d _. unfold compose. cbn beta.
    destruct (List.find _ (rows res)) as [r0|] eqn:Hfind.
    + apply find_some in Hfind as [_ Hd%bool_decide_eq_true%stamp_of_Some].
      read_cells. done.
    + read_cells.
      split; [reflexivity|]. split; [reflexivity|]. split; [reflexivity|].
      intros Hin. exfalso.
      apply He. unfold add_column in Hin. case_decide; [assumption|].
      apply elem_of_app in Hin as [Hin|Hin%list_elem_of_singleton];
        [exact Hin | discriminate].
Qed.

(** ** The days of a reduced table *)

Lemma idxmax_elem key l r : idxmax key l = Some r → r ∈ l.
Proof.
  intros (i & m & Hi & _)%idxmax_first_max. by eapply list_elem_of_lookup_2.
Qed.

(** When every group has a label, the selected rows are one per key, each a
    row of its group. *)
Lemma traverse_pick_inv rs ks picks :
  traverse pick_idxmax (map (λ d, (d, group d rs)) ks) = Return picks →
  map fst picks = ks ∧ Forall (λ p, p.2 ∈ rs ∧ day_of p.2 = Some p.1) picks.
Proof.
  revert picks. induction ks as [|d ks IH]; intros picks H.
  - injection H as <-. split; constructor.
  - cbn [map traverse] in H. unfold mbind, outcome_bind, obind in H.
    destruct (pick_idxmax (d, group d rs)) as [[d' r]|] eqn:Hp; [|discriminate].
    destruct (traverse pick_idxmax _) as [rest|] eqn:Ht; [|discriminate].
    injection H as <-. destruct (IH rest eq_refl) as [Hfst Hall].
    unfold pick_idxmax in Hp. cbn [fst snd] in Hp.
    destruct (idxmax magnitude_of (group d rs)) as [r'|] eqn:Hr;
      [|discriminate].
    injection Hp as <- <-.
    apply idxmax_elem, elem_of_filter_bool in Hr as [Hin Hd].
    apply bool_decide_eq_true in Hd.
    split; [cbn [map fst]; by rewrite Hfst|]. by constructor.
Qed.

Lemma picked_rows_days (count : Z → Z) (rs : list (gmap string cell))
    (picks : list (Z * gmap string cell)) :
  Forall (λ p, p.2 ∈ rs ∧ day_of p.2 = Some p.1) picks →
  map (λ r, get r "time") (map (λ p, finish_pick (count p.1) p.2) picks)
  = map Stamp (map fst picks)
  ∧ Forall (λ r, ∃ n, get r "event_count" = Count n)
      (map (λ p, finish_pick (count p.1) p.2) picks).
Proof.
  induction 1 as [|[d r] picks [_ Hd] _ [IH1 IH2]]; [split; constructor|].
  cbn [fst snd] in Hd. apply stamp_of_Some in Hd.
  cbn [map fst snd]. split.
  - f_equal; [|exact IH1]. unfold finish_pick. read_cells. exact Hd.
  - constructor; [|exact IH2]. exists (count d). unfold finish_pick.
    by read_cells.
Qed.

Lemma picked_columns_time cols : "time" ∈ picked_columns cols.
Proof.
  unfold picked_columns, drop_column. apply elem_of_filter_bool.
  split; [apply add_column_elem | by apply bool_decide_eq_true].
Qed.

Lemma daily_max_mag_days df res :
  daily_max_mag df = Return res → day_table (group_keys (rows df)) res.
Proof.
  unfold daily_max_mag, mbind, outcome_bind, obind. intros H.
  destruct (require_column "magnitude" df); [|discriminate].
  destruct (traverse pick_idxmax (groupby (rows df))) as [picks|] eqn:Ht;
    [|discriminate].
  destruct (require_column "event_id" df); [|discriminate].
  injection H as <-. apply traverse_pick_inv in Ht as [<- Hall].
  destruct (picked_rows_days
              (λ d, count_notna "event_id" (group d (rows df))) _ _ Hall)
    as [Htimes Hcounts].
  split; [apply picked_columns_time|]. by split.
Qed.

Lemma daily_mag_threshold_days threshold df res :
  "time" ∈ columns df →
  daily_mag_threshold threshold df = Return res →
  ∃ ks, day_table ks res ∧ StronglySorted Z.lt ks
        ∧ ∀ d, d ∈ ks → d ∈ group_keys (rows df).
Proof.
  intros Htime. unfold daily_mag_threshold.
  destruct threshold as [th|]; [|discriminate].
  unfold mbind, outcome_bind, obind.
  destruct (require_column "magnitude" df); [|discriminate].
  set (sub := filter_rows (λ r, ge_float (get r "magnitude") th) df).
  destruct (rows sub) as [|r0 rest] eqn:Hsub.
  - intros [= <-]. exists []. split; [|split].
    + split; [exact Htime|]. rewrite Hsub. split; constructor.
    + constructor.
    + intros d Hd. by apply elem_of_nil in Hd.
  - rewrite <- Hsub. clear Hsub r0 rest. intros H.
    destruct (traverse pick_idxmax (groupby (rows sub))) as [picks|] eqn:Ht;
      [|discriminate].
    destruct (require_column "event_id" df); [|discriminate].
    injection H as <-. apply traverse_pick_inv in Ht as [Hfst Hall].
    destruct (picked_rows_days (λ d, size (group d (rows df))) _ _ Hall)
      as [Htimes Hcounts].
    exists (map fst picks). split; [|split].
    + split; [apply picked_columns_time|]. by split.
    + rewrite Hfst. apply group_keys_sorted.
    + intros d. rewrite Hfst, !group_keys_elem. intros (r & Hin & Hd).
      exists r. split; [|exact Hd].
      unfold sub, filter_rows in Hin. cbn [rows] in Hin.
      by apply elem_of_filter_bool in Hin as [? _].
Qed.

(** The days of the date window. *)
Lemma window_days s e r d :
  in_window (Some s) (Some e) r = true → day r = Some d →
  d ∈ date_range (floor_day s) (floor_day e).
Proof.
  unfold in_window, in_range, day.
  destruct (get r "time") as [| | |t|]; simpl; try discriminate.
  intros [H1%Z.leb_le H2%Z.leb_le]%andb_true_iff [= <-].
  apply date_range_days. split; [apply floor_day_idem | lia].
Qed.

Section FillFacts.

Variable to_numeric : pyval → option R.
Variable to_datetime : pyval → option Z.

#[local] Abbreviation current' := (current to_numeric to_datetime).

Lemma ensure_energy_days energy_col df df' :
  "__day" ∈ columns df →
  _ensure_energy to_numeric energy_col df = Return df' →
  omap day_of (rows df') = omap day_of (rows df).
Proof.
  intros Hday. unfold _ensure_energy. case_decide as Hcol; [by intros [= <-]|].
  unfold convert_energy_frame, mbind, outcome_bind, obind.
  destruct (require_column "magnitude" df); [|discriminate].
  intros [= <-]. unfold set_column. cbn [rows].
  assert (Hne : energy_col ≠ "__day") by (by intros ->).
  assert (Hd : ∀ r v, day_of (<[energy_col := v]> r) = day_of r).
  { intros r v. unfold day_of. by rewrite get_insert_ne. }
  induction (rows df) as [|r rs IH]; [reflexivity|].
  cbn [map omap list_omap]. by rewrite Hd, IH.
Qed.

Lemma daily_energy_days use_sum energy_col df res :
  "__day" ∈ columns df →
  daily_energy to_numeric use_sum energy_col df = Return res →
  day_table (group_keys (rows df)) res.
Proof.
  intros Hday. unfold daily_energy, mbind, outcome_bind, obind.
  destruct (_ensure_energy to_numeric energy_col df) as [df'|] eqn:He;
    [|discriminate].
  apply ensure_energy_days in He; [|exact Hday].
  destruct (require_column "event_id" df'); [|discriminate].
  destruct (require_column "magnitude" df'); [|discriminate].
  intros [= <-]. unfold day_table, groupby, group_keys. cbn [columns rows].
  rewrite He. split; [set_solver|]. rewrite !map_map. split.
  - apply map_ext. intros d. by read_cells.
  - apply Forall_forall. intros r (d & -> & _)%list_elem_of_fmap.
    eexists. by read_cells.
Qed.

(** A reduction that returns between two given bounds leaves a table of
    days: distinct days of the range, in ascending order. *)
Lemma aggregate_frame_days mode threshold energy_col s e now df res :
  aggregate_frame to_numeric mode threshold energy_col false (Some s) (Some e)
    now df = Return res →
  ∃ ks, day_table ks res ∧ StronglySorted Z.lt ks
        ∧ ∀ d, d ∈ ks → d ∈ date_range (floor_day s) (floor_day e).
Proof.
  unfold aggregate_frame, mbind, outcome_bind, obind.
  unfold require_column at 1. case_decide as Htime; [|discriminate].
  cbv zeta.
  pose proof (windowed_rows (Some s) (Some e) df) as Hrows.
  pose proof (windowed_columns (Some s) (Some e) df) as Hcols.
  set (df' := between _ _ _ _ _ _) in *.
  assert (Hkeys : ∀ d, d ∈ group_keys (rows df') →
                       d ∈ date_range (floor_day s) (floor_day e)).
  { intros d. rewrite Hrows, group_keys_annotate.
    intros (r & [_ Hw]%elem_of_filter_bool & Hd). by eapply window_days. }
  assert (Htime' : "time" ∈ columns df').
  { rewrite Hcols. by apply add_column_mono. }
  assert (Hday : "__day" ∈ columns df').
  { rewrite Hcols. apply add_column_elem. }
  repeat case_decide.
  - destruct (daily_max_mag df') as [res'|] eqn:H'; intros [= <-].
    exists (group_keys (rows df')).
    split; [by apply daily_max_mag_days|].
    split; [apply group_keys_sorted | exact Hkeys].
  - destruct (daily_mag_threshold threshold df') as [res'|] eqn:H';
      intros [= <-].
    destruct (daily_mag_threshold_days _ _ _ Htime' H')
      as (ks & Htab & Hsort & Hsub).
    exists ks. split; [exact Htab|]. split; [exact Hsort|]. auto.
  - destruct (daily_energy to_numeric true energy_col df') as [res'|] eqn:H';
      intros [= <-].
    exists (group_keys (rows df')).
    split; [by eapply daily_energy_days|].
    split; [apply group_keys_sorted | exact Hkeys].
  - destruct (daily_energy to_numeric false energy_col df') as [res'|] eqn:H';
      intros [= <-].
    exists (group_keys (rows df')).
    split; [by eapply daily_energy_days|].
    split; [apply group_keys_sorted | exact Hkeys].
  - discriminate.
Qed.

(** With gap filling the method does what it does without, and then fills
    the days. *)
Lemma aggregate_frame_fill mode threshold energy_col start end_ now df res :
  aggregate_frame to_numeric mode threshold energy_col false start end_ now df
  = Return res →
  aggregate_frame to_numeric mode threshold energy_col true start end_ now df
  = fill_days start end_ now
      (between ge_stamp le_stamp "__day" (floor_day <$> start)
         (floor_day <$> end_)
         (set_column "__day" (λ r, day_cell (get r "time")) df))
      res.
Proof.
  unfold aggregate_frame, mbind, outcome_bind, obind.
  destruct (require_column "time" df); [|discriminate]. cbv zeta.
  match goal with
  | |- match ?x with Return _ => _ | Raise _ => _ end = _ → _ => destruct x
  end; [|discriminate].
  by intros [= ->].
Qed.

Lemma Forall2_times (days : list Z) (rs : list (gmap string cell)) :
  Forall2 (λ d r, get r "time" = Stamp d) days rs →
  map (λ r, get r "time") rs = map Stamp days.
Proof. induction 1 as [|d r ds rs' Ht _ IH]; [reflexivity|]. cbn [map]. by rewrite Ht, IH. Qed.


End FillFacts.

(** ** The theorems at sample inputs *)

Lemma one_quiet_event_time :
  "time" ∈ columns (current plain_numeric plain_datetime one_quiet_event).
Proof. apply canonical_present. unfold CANONICAL_FIELDS. set_solver. Qed.

Lemma one_quiet_event_magnitude :
  "magnitude" ∈ columns (current plain_numeric plain_datetime one_quiet_event).
Proof. apply canonical_present. unfold CANONICAL_FIELDS. set_solver. Qed.

Lemma one_quiet_event_id :
  "event_id" ∈ columns (current plain_numeric plain_datetime one_quiet_event).
Proof. apply canonical_present. unfold CANONICAL_FIELDS. set_solver. Qed.

Lemma aggregate_daily_config_error_witness :
  "time" ∈ columns (current plain_numeric plain_datetime one_quiet_event)
  ∧ (("daily_mag_threshold" = "daily_mag_threshold" ∧ @None R = None)
     ∨ "daily_mag_threshold" ∉ MODES)
  ∧ ∃ msg ds',
      aggregate_daily plain_numeric plain_datetime "daily_mag_threshold" None
        "energy_J" true None None 0 one_quiet_event
      = (Raise (ValueError msg), ds')
      ∧ _raw ds' = _raw one_quiet_event
      ∧ current plain_numeric plain_datetime ds'
        = current plain_numeric plain_datetime one_quiet_event
      ∧ to_dataframe plain_numeric plain_datetime ds'
        = (Return (current plain_numeric plain_datetime one_quiet_event), ds').
Proof.
  pose proof one_quiet_event_time as H1.
  assert (H2 : ("daily_mag_threshold" = "daily_mag_threshold"
                ∧ @None R = None)
               ∨ "daily_mag_threshold" ∉ MODES).
  { left. split; reflexivity. }
  split; [exact H1|]. split; [exact H2|].
  exact (aggregate_daily_config_error plain_numeric plain_datetime
           "daily_mag_threshold" None "energy_J" true None None 0
           one_quiet_event H1 H2).
Defined.



(** * Further properties of the class *)

(** ** The cells of the built table *)

Lemma lookup_row (f : string → cell) (cols : list string) c :
  (list_to_map (map (λ c, (c, f c)) cols) : gmap string cell) !! c
  = if decide (c ∈ cols) then Some (f c) else None.
Proof.
  induction cols as [|x cols IH]; [reflexivity|]. cbn [map list_to_map foldr].
  destruct (decide (c = x)) as [->|Hne].
  - rewrite lookup_insert_eq, decide_True; [reflexivity | by left].
  - cbn [fst snd]. rewrite lookup_insert_ne by congruence. rewrite IH.
    destruct (decide (c ∈ cols)) as [Hin|Hin].
    + rewrite decide_True; [reflexivity | by right].
    + rewrite decide_False; [reflexivity|].
      intros [?|?]%elem_of_cons; contradiction.
Qed.

Lemma first_seen_normalized r raw :
  first_seen (map _normalize_record (r :: raw)) = CANONICAL_FIELDS.
Proof.
  unfold first_seen. cbn [map foldl].
  change (map fst (_normalize_record r)) with CANONICAL_FIELDS.
  replace (foldl (λ a k, add_column k a) [] CANONICAL_FIELDS)
    with CANONICAL_FIELDS by (vm_compute; reflexivity).
  induction raw as [|r' raw IH]; [reflexivity|]. cbn [map foldl].
  change (map fst (_normalize_record r')) with CANONICAL_FIELDS.
  replace (foldl (λ a k, add_column k a) CANONICAL_FIELDS CANONICAL_FIELDS)
    with CANONICAL_FIELDS by (vm_compute; reflexivity).
  exact IH.
Qed.

Lemma assoc_normalize r c names :
  (c, names) ∈ ALIASES → assoc c (_normalize_record r) = Some (g r names).
Proof.
  unfold ALIASES. intros H.
  repeat (apply elem_of_cons in H as [[= -> ->]|H]; [reflexivity|]).
  by apply elem_of_nil in H.
Qed.

Lemma aliases_canonical c names : (c, names) ∈ ALIASES → c ∈ CANONICAL_FIELDS.
Proof.
  intros H. rewrite <- aliases_fields.
  by apply (list_elem_of_fmap_2 fst) in H.
Qed.

Lemma ensure_canonical_id df :
  CANONICAL_FIELDS ⊆ columns df → ensure_canonical df = df.
Proof.
  unfold ensure_canonical. generalize CANONICAL_FIELDS as todo.
  induction todo as [|c todo IH]; intros Hsub; [reflexivity|]. cbn [foldl].
  rewrite decide_True by (apply Hsub; by left).
  apply IH. intros x Hx. apply Hsub. by right.
Qed.

Lemma numeric_canonical : NUMERIC_FIELDS ⊆ CANONICAL_FIELDS.
Proof.
  intros x Hx. unfold NUMERIC_FIELDS in Hx.
  repeat (apply elem_of_cons in Hx as [->|Hx]; [compute_done|]).
  by apply elem_of_nil in Hx.
Qed.

Section TableFacts.

Variable to_numeric : pyval → option R.
Variable to_datetime : pyval → option Z.

(** The numeric coercion row by row: the cells of the numeric fields are
    coerced, the others are kept. *)
Lemma coerce_numeric_get df i row :
  NUMERIC_FIELDS ⊆ columns df → rows df !! i = Some row →
  ∃ row', rows (coerce_numeric to_numeric df) !! i = Some row'
    ∧ ∀ c, get row' c = if decide (c ∈ NUMERIC_FIELDS)
                        then numeric_cell to_numeric (get row c)
                        else get row c.
Proof.
  unfold coerce_numeric.
  assert (Hnd : NoDup NUMERIC_FIELDS) by compute_done.
  revert Hnd df row. generalize NUMERIC_FIELDS as todo.
  induction todo as [|col todo IH]; intros Hnd df row Hsub Hrow.
  - exists row. split; [exact Hrow|]. intros c.
    rewrite decide_False; [reflexivity | apply not_elem_of_nil].
  - apply NoDup_cons in Hnd as [Hcol Hnd]. cbn [foldl].
    rewrite decide_True by (apply Hsub; by left).
    destruct (IH Hnd
                (set_column col (λ r, numeric_cell to_numeric (get r col)) df)
                (<[col := numeric_cell to_numeric (get row col)]> row))
      as (row' & Hrow' & Hget).
    + intros x Hx. cbn [set_column columns]. apply add_column_mono, Hsub.
      by right.
    + cbn [set_column rows].
      change (map ?f ?l !! i) with ((f <$> l) !! i).
      by rewrite list_lookup_fmap, Hrow.
    + exists row'. split; [exact Hrow'|]. intros c. rewrite Hget.
      destruct (decide (c = col)) as [->|Hne].
      * rewrite decide_False by exact Hcol.
        rewrite decide_True by (by left). apply get_insert_eq.
      * rewrite get_insert_ne by congruence.
        destruct (decide (c ∈ todo)) as [Hin|Hin].
        -- by rewrite decide_True by (by right).
        -- rewrite decide_False; [reflexivity|].
           intros [?|?]%elem_of_cons; contradiction.
Qed.


End TableFacts.

(** ** Chains of filters and energy conversions *)

Lemma filter_sublist {A} (p : A → bool) (l : list A) :
  sublist (List.filter p l) l.
Proof.
  induction l as [|x l IH]; [constructor|]. simpl.
  destruct (p x); by constructor.
Qed.

Lemma filter_rows_idem p df : filter_rows p (filter_rows p df) = filter_rows p df.
Proof.
  rewrite filter_rows_filter_rows. apply filter_rows_ext. intros r.
  by destruct (p r).
Qed.

Section ChainFacts.

Variable to_numeric : pyval → option R.
Variable to_datetime : pyval → option Z.
Variable str_lower : string → string.
Variable py_str : pyval → string.

#[local] Abbreviation current' := (current to_numeric to_datetime).
#[local] Abbreviation apply_filter' :=
  (apply_filter to_numeric to_datetime str_lower py_str).
#[local] Abbreviation keeps' := (keeps str_lower py_str).
#[local] Abbreviation convert_energy' :=
  (convert_energy to_numeric to_datetime).

Lemma current_stored raw df : current' {| _raw := raw; _df := Some df |} = df.
Proof. reflexivity. Qed.

(** A filter call on a table that has the tested column returns; it keeps
    the raw records and the columns, it keeps rows of the table in their
    order and adds none, every row it keeps passes its test, and the same
    call once more changes nothing. *)
Theorem filter_again (f : filter_spec) (ds : Dataset) :
  tested_column f ∈ columns (current' ds) →
  ∃ ds1,
    apply_filter' f ds = (Return tt, ds1)
    ∧ _raw ds1 = _raw ds
    ∧ columns (current' ds1) = columns (current' ds)
    ∧ sublist (rows (current' ds1)) (rows (current' ds))
    ∧ Forall (λ r, keeps' f r = true) (rows (current' ds1))
    ∧ apply_filter' f ds1 = (Return tt, ds1).
Proof.
  intros Hcol. rewrite apply_filter_run, decide_True by exact Hcol.
  eexists. split; [reflexivity|]. split; [reflexivity|].
  split; [reflexivity|]. rewrite !current_stored. cbn [filter_rows rows].
  split; [apply filter_sublist|]. split.
  - apply Forall_forall. intros r Hr.
    by apply elem_of_filter_bool in Hr as [_ ?].
  - rewrite apply_filter_run, !current_stored. cbn [_raw].
    change (columns (filter_rows ?p ?d)) with (columns d).
    rewrite decide_True by exact Hcol.
    by rewrite filter_rows_idem.
Qed.

(** The magnitude-type filter matches more with [case_insensitive] than
    without: the strict call after the loose one leaves what the strict call
    alone leaves, a missing column included.  An empty list of allowed types
    keeps no row. *)
Theorem mag_type_strict_within_loose (allowed : list string) (ds : Dataset) :
  (apply_filter' (ByMagType allowed true)
     ≫= λ _, apply_filter' (ByMagType allowed false)) ds
  = apply_filter' (ByMagType allowed false) ds
  ∧ (∀ r, keeps' (ByMagType allowed false) r = true →
          keeps' (ByMagType allowed true) r = true)
  ∧ (∀ ci r, keeps' (ByMagType [] ci) r = false).
Proof.
  assert (Hsub : ∀ r, keeps' (ByMagType allowed false) r = true →
                      keeps' (ByMagType allowed true) r = true).
  { intros r. cbn [keeps]. unfold mag_type_mask.
    destruct (astype_string py_str (get r "mag_type")) as [s|];
      [|discriminate].
    intros Hs%bool_decide_eq_true. apply bool_decide_eq_true.
    by apply (list_elem_of_fmap_2 str_lower). }
  split; [|split; [exact Hsub|]].
  - unfold mbind, M_bind, bind. cbn beta. rewrite !(apply_filter_run _ _ _ _ _ ds).
    cbn [tested_column].
    destruct (decide ("mag_type" ∈ columns (current' ds))) as [Hc|Hc];
      [|reflexivity].
    rewrite apply_filter_run, !current_stored. cbn [_raw].
    change (columns (filter_rows ?p ?d)) with (columns d).
    cbn [tested_column]. rewrite decide_True by exact Hc.
    rewrite filter_rows_filter_rows. do 3 f_equal.
    apply filter_rows_ext. intros r.
    destruct (keeps' (ByMagType allowed false) r) eqn:Hk.
    + by rewrite (Hsub r Hk).
    + apply andb_false_r.
  - intros ci r. cbn [keeps]. unfold mag_type_mask.
    destruct (astype_string py_str (get r "mag_type")) as [s|];
      [|reflexivity].
    destruct ci; apply bool_decide_eq_false; cbn [map]; apply not_elem_of_nil.
Qed.

Lemma set_column_twice name f f' df :
  (∀ r v, f' (<[name := v]> r) = f' r) →
  set_column name f' (set_column name f df) = set_column name f' df.
Proof.
  intros Hf. unfold set_column. cbn [columns rows]. f_equal.
  - apply add_column_present, add_column_elem.
  - rewrite map_map. apply map_ext. intros r.
    by rewrite Hf, insert_insert_eq.
Qed.

(** Writing the energy twice into the same column, with the same or with
    other constants: the second conversion overwrites the first, and the
    table is the one the second conversion alone leaves. In particular a
    conversion repeated is the conversion done once. *)
Theorem convert_energy_overwrites (a b a' b' : R) (out_col : string)
    (ds : Dataset) :
  out_col ≠ "magnitude" →
  (convert_energy' a b out_col ≫= λ _, convert_energy' a' b' out_col) ds
  = convert_energy' a' b' out_col ds.
Proof.
  intros Hout. unfold mbind, M_bind, bind. cbn beta.
  destruct (decide ("magnitude" ∈ columns (current' ds))) as [Hmag|Hmag].
  - rewrite !(convert_energy_run _ _ _ _ _ ds Hmag).
    rewrite convert_energy_run.
    + rewrite current_stored. cbn [_raw]. do 3 f_equal.
      apply set_column_twice. intros r v. by rewrite get_insert_ne.
    + rewrite current_stored. cbn [set_column columns].
      by apply add_column_mono.
  - unfold convert_energy, mbind, M_bind, bind. cbn beta.
    rewrite !to_dataframe_current. unfold lift, convert_energy_frame.
    rewrite !(require_column_absent _ _ Hmag). reflexivity.
Qed.


Lemma keeps_other_column f (r : gmap string cell) name v :
  name ≠ tested_column f → keeps' f (<[name := v]> r) = keeps' f r.
Proof.
  intros Hne. destruct f; cbn [tested_column] in Hne; cbn [keeps];
    unfold mag_type_mask; by rewrite get_insert_ne.
Qed.

(** Filtering and converting commute: on a table that has the magnitude and
    the tested column, a filter call before a conversion and the same call
    after it leave the same table, unless the conversion writes the column
    the filter tests. *)
Theorem convert_energy_filter_commute (a b : R) (out_col : string)
    (f : filter_spec) (ds : Dataset) :
  out_col ≠ tested_column f →
  "magnitude" ∈ columns (current' ds) →
  tested_column f ∈ columns (current' ds) →
  ∃ ds',
    (apply_filter' f ≫= λ _, convert_energy' a b out_col) ds = (Return tt, ds')
    ∧ (convert_energy' a b out_col ≫= λ _, apply_filter' f) ds
      = (Return tt, ds').
Proof.
  intros Hne Hmag Hcol. unfold mbind, M_bind, bind. cbn beta.
  rewrite apply_filter_run, decide_True by exact Hcol.
  rewrite (convert_energy_run _ _ _ _ _ ds Hmag).
  rewrite convert_energy_run by (by rewrite current_stored).
  rewrite apply_filter_run, !current_stored. cbn [_raw].
  rewrite decide_True by (cbn [set_column columns]; by apply add_column_mono).
  eexists. split; [reflexivity|]. do 3 f_equal.
  unfold filter_rows, set_column. cbn [columns rows]. f_equal.
  rewrite filter_map. f_equal. apply List.filter_ext. intros r.
  by apply keeps_other_column.
Qed.

End ChainFacts.

(** ** The daily reductions as the code has them *)

Lemma count_notna_annotate c l :
  c ≠ "__day" → count_notna c (map annotate l) = count_notna c l.
Proof.
  intros Hc. unfold count_notna. rewrite filter_map, length_map. do 2 f_equal.
  apply List.filter_ext. intros r. by rewrite get_annotate.
Qed.

Lemma on_day_elem d (l : list (gmap string cell)) r :
  r ∈ List.filter (on_day d) l ↔ r ∈ l ∧ day r = Some d.
Proof.
  rewrite elem_of_filter_bool. unfold on_day.
  by rewrite bool_decide_eq_true.
Qed.

Section ReduceMore.

Variable to_numeric : pyval → option R.
Variable to_datetime : pyval → option Z.

#[local] Abbreviation current' := (current to_numeric to_datetime).
#[local] Abbreviation aggregate_daily' :=
  (aggregate_daily to_numeric to_datetime).


(** The row an energy mode makes of the day [d] whose rows are [G]. *)
Lemma daily_energy_rows use_sum energy_col (df' : DataFrame) W cols :
  columns df' = add_column "__day" cols → rows df' = map annotate W →
  "magnitude" ∈ cols → "event_id" ∈ cols → energy_col ≠ "__day" →
  let energy := λ r : gmap string cell,
    if decide (energy_col ∈ cols) then float_of (get r energy_col)
    else float_of (energy_cell to_numeric 1.44 5.24 (get r "magnitude")) in
  ∃ res,
    daily_energy to_numeric use_sum energy_col df' = Return res
    ∧ columns res = ["time"; "energy_J"; "event_count"; "magnitude"]
    ∧ rows res
      = map (λ d, let G := List.filter (on_day d) W in
               <["time" := Stamp d]>
                 (<["energy_J" := if use_sum
                                  then Float (series_sum (map energy G))
                                  else float_cell (series_max (map energy G))]>
                    (<["event_count" := Count (count_notna "event_id" G)]>
                       (<["magnitude" :=
                            float_cell (series_max (map magnitude_of G))]>
                          ∅))))
          (group_keys (map annotate W)).
Proof.
  intros Hcols Hrows Hmag Hid Hne energy.
  assert (Hmag' : "magnitude" ∈ columns df')
    by (rewrite Hcols; by apply add_column_mono).
  assert (Hid' : "event_id" ∈ columns df')
    by (rewrite Hcols; by apply add_column_mono).
  unfold daily_energy, _ensure_energy.
  destruct (decide (energy_col ∈ columns df')) as [Hin|Hin].
  - assert (Hin' : energy_col ∈ cols).
    { rewrite Hcols in Hin. unfold add_column in Hin. case_decide; [done|].
      apply elem_of_app in Hin as [?|Hin%list_elem_of_singleton]; done. }
    unfold mbind, outcome_bind, obind.
    rewrite (require_column_present _ _ Hmag'),
      (require_column_present _ _ Hid').
    eexists. split; [reflexivity|]. split; [reflexivity|].
    cbn [rows]. unfold groupby. rewrite Hrows, map_map.
    apply map_ext. intros d. cbn [fst snd]. cbv zeta.
    rewrite group_annotate, !map_map, count_notna_annotate by discriminate.
    unfold energy. destruct (decide (energy_col ∈ cols)); [|contradiction].
    rewrite (map_ext (λ r, float_of (get (annotate r) energy_col))
               (λ r, float_of (get r energy_col)))
      by (intros r; by rewrite get_annotate).
    rewrite (map_ext (λ r, magnitude_of (annotate r)) magnitude_of)
      by (intros r; apply magnitude_of_annotate).
    reflexivity.
  - assert (Hin' : energy_col ∉ cols).
    { intros H. apply Hin. rewrite Hcols. by apply add_column_mono. }
    assert (Hne1 : energy_col ≠ "magnitude") by (by intros ->).
    assert (Hne2 : energy_col ≠ "event_id") by (by intros ->).
    unfold convert_energy_frame, mbind, outcome_bind, obind.
    rewrite (require_column_present _ _ Hmag').
    set (ins := λ r : gmap string cell,
           <[energy_col := energy_cell to_numeric 1.44 5.24
                             (get r "magnitude")]> r).
    set (df2 := set_column energy_col _ df').
    assert (Hrows2 : rows df2 = map ins (map annotate W)).
    { unfold df2, set_column. cbn [rows]. by rewrite Hrows. }
    rewrite (require_column_present "event_id" df2),
      (require_column_present "magnitude" df2)
      by (unfold df2; cbn [set_column columns]; by apply add_column_mono).
    assert (Hday : ∀ r, day_of (ins r) = day_of r).
    { intros r. unfold day_of, ins. by rewrite get_insert_ne. }
    assert (Hkeys : group_keys (rows df2) = group_keys (map annotate W)).
    { assert (Homap : ∀ l, omap day_of (map ins l) = omap day_of l).
      { induction l as [|r l IH]; [reflexivity|].
        cbn [map omap list_omap]. by rewrite Hday, IH. }
      unfold group_keys. by rewrite Hrows2, Homap. }
    assert (Hgroup : ∀ d, group d (rows df2)
                          = map ins (map annotate (List.filter (on_day d) W))).
    { intros d. rewrite Hrows2. unfold group. rewrite filter_map. f_equal.
      rewrite <- group_annotate. unfold group. apply List.filter_ext.
      intros r. by rewrite Hday. }
    eexists. split; [reflexivity|]. split; [reflexivity|].
    cbn [rows]. unfold groupby. rewrite Hkeys, map_map.
    apply map_ext. intros d. cbn [fst snd]. cbv zeta.
    rewrite Hgroup, !map_map. unfold energy.
    destruct (decide (energy_col ∈ cols)); [contradiction|].
    rewrite (map_ext (λ r, float_of (get (ins (annotate r)) energy_col))
               (λ r, float_of (energy_cell to_numeric 1.44 5.24
                                 (get r "magnitude")))).
    2:{ intros r. unfold ins. by rewrite get_insert_eq, get_annotate. }
    rewrite (map_ext (λ r, magnitude_of (ins (annotate r))) magnitude_of).
    2:{ intros r. unfold magnitude_of, ins.
        by rewrite get_insert_ne, get_annotate. }
    replace (count_notna "event_id"
               (map (λ r, ins (annotate r)) (List.filter (on_day d) W)))
      with (count_notna "event_id" (List.filter (on_day d) W)).
    2:{ unfold count_notna. rewrite filter_map, length_map.
        do 2 f_equal. apply List.filter_ext. intros r. unfold ins.
        by rewrite get_insert_ne, get_annotate. }
    reflexivity.
Qed.

Lemma foldl_Rmax_greatest x l :
  (foldl Rmax x l = x ∨ foldl Rmax x l ∈ l)
  ∧ (x <= foldl Rmax x l)%R
  ∧ ∀ y, y ∈ l → (y <= foldl Rmax x l)%R.
Proof.
  revert x. induction l as [|y l IH]; intros x; cbn [foldl].
  - split; [by left|]. split; [lra|]. intros y Hy. by apply elem_of_nil in Hy.
  - destruct (IH (Rmax x y)) as (Hin & Hle & Hall).
    pose proof (Rmax_l x y) as Hl. pose proof (Rmax_r x y) as Hr.
    split; [|split; [lra|]].
    + destruct Hin as [Heq|Hin]; [|right; by right].
      rewrite Heq. unfold Rmax.
      destruct (Rle_dec x y); [right; by left | by left].
    + intros z [->|Hz]%elem_of_cons; [lra | by apply Hall].
Qed.

(** [max] of a column: the greatest of its non-null values. *)
Lemma series_max_greatest (key : gmap string cell → option R) G m :
  series_max (map key G) = Some m →
  (∃ r, r ∈ G ∧ key r = Some m)
  ∧ ∀ r m', r ∈ G → key r = Some m' → (m' <= m)%R.
Proof.
  unfold series_max.
  assert (Hdrop : ∀ x, x ∈ dropna (map key G) ↔ ∃ r, r ∈ G ∧ key r = Some x).
  { intros x. unfold dropna. rewrite list_elem_of_omap. split.
    - intros (o & (r & -> & Hr)%list_elem_of_fmap & Hx). by exists r.
    - intros (r & Hr & Hx). exists (key r).
      split; [by apply (list_elem_of_fmap_2 key) | exact Hx]. }
  destruct (dropna (map key G)) as [|x l] eqn:Hd; [discriminate|].
  intros [= <-]. destruct (foldl_Rmax_greatest x l) as (Hin & Hle & Hall).
  split.
  - apply Hdrop. destruct Hin as [->|Hin]; [by left | by right].
  - intros r m' Hr Hm'.
    assert (Hm : m' ∈ x :: l) by (apply Hdrop; by exists r).
    apply elem_of_cons in Hm as [->|Hm]; [exact Hle | by apply Hall].
Qed.


Lemma picked_columns_no_day cols : "__day" ∉ picked_columns cols.
Proof.
  unfold picked_columns, drop_column. intros [_ H]%elem_of_filter_bool.
  by apply bool_decide_eq_true in H.
Qed.

Lemma picked_columns_count cols : "event_count" ∈ picked_columns cols.
Proof.
  unfold picked_columns, drop_column. apply elem_of_filter_bool.
  split; [apply add_column_mono, add_column_elem|].
  by apply bool_decide_eq_true.
Qed.

Lemma filter_none {A} (p : A → bool) (l : list A) :
  (∀ x, x ∈ l → p x = false) → List.filter p l = [].
Proof.
  induction l as [|x l IH]; intros H; [reflexivity|]. simpl.
  rewrite (H x) by (by left). apply IH. intros y Hy. apply H. by right.
Qed.


End ReduceMore.

(** ** Gap filling without bounds *)

Lemma fill_range_rows (days : list Z) res :
  Forall2 (λ d r,
     get r "time" = Stamp d
     ∧ match List.find (λ r0, bool_decide (stamp_of (get r0 "time") = Some d))
               (rows res) with
       | Some r0 => get r "magnitude" = get r0 "magnitude"
                    ∧ get r "event_count" = fill0_int (get r0 "event_count")
       | None => get r "event_count" = Count 0
                 ∧ get r "magnitude" = NA
                 ∧ ("energy_J" ∈ columns (fill_range days res) →
                    get r "energy_J" = Float 0)
       end)
    days (rows (fill_range days res)).
Proof.
  unfold fill_range. cbv zeta.
  destruct (decide ("energy_J" ∈ columns (reindex days res))) as [He|He].
  - unfold set_column, fillna, reindex. cbn [rows columns].
    rewrite !map_map. apply Forall2_fmap_r, Forall_Forall2_diag, Forall_forall.
    intros d _. unfold compose. cbn beta.
    destruct (List.find _ (rows res)) as [r0|] eqn:Hfind.
    + apply find_some in Hfind as [_ Hd%bool_decide_eq_true%stamp_of_Some].
      destruct (notna (get r0 "energy_J")); read_cells; done.
    + read_cells. cbn [notna]. read_cells. done.
  - unfold set_column, reindex. cbn [rows columns].
    rewrite !map_map. apply Forall2_fmap_r, Forall_Forall2_diag, Forall_forall.
    intros d _. unfold compose. cbn beta.
    destruct (List.find _ (rows res)) as [r0|] eqn:Hfind.
    + apply find_some in Hfind as [_ Hd%bool_decide_eq_true%stamp_of_Some].
      read_cells. done.
    + read_cells.
      split; [reflexivity|]. split; [reflexivity|]. split; [reflexivity|].
      intros Hin. exfalso.
      apply He. unfold add_column in Hin. case_decide; [assumption|].
      apply elem_of_app in Hin as [Hin|Hin%list_elem_of_singleton];
        [exact Hin | discriminate].
Qed.

(** What the filled table holds, for a table of the days [ks] filled over
    days that include them. *)
Lemma fill_range_table (days ks : list Z) res :
  day_table ks res → StronglySorted Z.lt ks → (∀ d, d ∈ ks → d ∈ days) →
  map (λ r, get r "time") (rows (fill_range days res)) = map Stamp days
  ∧ (∀ r, r ∈ rows (fill_range days res) →
          (∀ r0, r0 ∈ rows res → get r0 "time" ≠ get r "time") →
          get r "event_count" = Count 0
          ∧ get r "magnitude" = NA
          ∧ ("energy_J" ∈ columns (fill_range days res) →
             get r "energy_J" = Float 0))
  ∧ (∀ r0, r0 ∈ rows res →
          ∃ r, r ∈ rows (fill_range days res)
               ∧ get r "time" = get r0 "time"
               ∧ get r "magnitude" = get r0 "magnitude"
               ∧ get r "event_count" = get r0 "event_count").
Proof.
  intros (Htime & Htimes & Hcounts) Hsorted Hin.
  pose proof (fill_range_rows days res) as Hfilled.
  split; [|split].
  - apply Forall2_times. eapply Forall2_impl; [exact Hfilled|].
    by intros d r [Ht _].
  - intros r Hr Hmiss. apply list_elem_of_lookup in Hr as [i Hi].
    destruct (Forall2_lookup_r _ _ _ _ _ Hfilled Hi) as (d & _ & Ht & Hcase).
    destruct (List.find _ (rows res)) as [r0|] eqn:Hfind; [|exact Hcase].
    apply find_some in Hfind as [Hr0 Hd%bool_decide_eq_true%stamp_of_Some].
    exfalso. apply (Hmiss r0); [by apply list_elem_of_In | congruence].
  - intros r0 Hr0.
    assert (Hd : ∃ d, d ∈ ks ∧ get r0 "time" = Stamp d).
    { apply (list_elem_of_fmap_2 (λ r, get r "time")) in Hr0.
      change (get r0 "time" ∈ map (λ r, get r "time") (rows res)) in Hr0.
      rewrite Htimes in Hr0. apply list_elem_of_fmap in Hr0 as (d & ? & ?).
      by exists d. }
    destruct Hd as (d & Hdks & Hd).
    destruct (list_elem_of_lookup_1 _ _ (Hin d Hdks)) as [i Hi].
    destruct (Forall2_lookup_l _ _ _ _ _ Hfilled Hi) as (r & Hr & Ht & Hcase).
    exists r. split; [by eapply list_elem_of_lookup_2|].
    split; [congruence|].
    destruct (List.find _ (rows res)) as [r1|] eqn:Hfind.
    + apply find_some in Hfind as [Hr1 Hd1%bool_decide_eq_true%stamp_of_Some].
      apply list_elem_of_In in Hr1.
      assert (Hinj : Inj (=) (=) Stamp) by (by intros x y [= ->]).
      assert (r1 = r0) as ->.
      { apply (distinct_cells (λ r, get r "time") (rows res));
          [|assumption|assumption|congruence].
        rewrite Htimes. apply NoDup_fmap_2; [exact Hinj|].
        by apply sorted_NoDup. }
      destruct Hcase as [Hm Hc]. split; [exact Hm|]. rewrite Hc.
      rewrite Forall_forall in Hcounts.
      destruct (Hcounts _ Hr0) as [n ->]. reflexivity.
    + exfalso. apply list_elem_of_In in Hr0.
      pose proof (find_none _ _ Hfind r0 Hr0) as Hno. cbn beta in Hno.
      apply bool_decide_eq_false in Hno. apply Hno. by rewrite Hd.
Qed.

Lemma foldl_min_least d l :
  foldl Z.min d l ∈ d :: l ∧ ∀ x, x ∈ d :: l → (foldl Z.min d l <= x)%Z.
Proof.
  revert d. induction l as [|y l IH]; intros d; cbn [foldl].
  - split; [by left|]. intros x Hx%list_elem_of_singleton. lia.
  - destruct (IH (Z.min d y)) as [Hin Hle]. split.
    + apply elem_of_cons in Hin as [Heq|Hin]; [|right; by right].
      rewrite Heq. destruct (Z.min_spec d y) as [[_ ->]|[_ ->]];
        [by left | right; by left].
    + intros x Hx.
      assert (foldl Z.min (Z.min d y) l <= Z.min d y)%Z
        by (apply Hle; by left).
      apply elem_of_cons in Hx as [->|Hx]; [lia|].
      apply elem_of_cons in Hx as [->|Hx]; [lia|]. apply Hle. by right.
Qed.

Lemma foldl_max_greatest d l :
  foldl Z.max d l ∈ d :: l ∧ ∀ x, x ∈ d :: l → (x <= foldl Z.max d l)%Z.
Proof.
  revert d. induction l as [|y l IH]; intros d; cbn [foldl].
  - split; [by left|]. intros x Hx%list_elem_of_singleton. lia.
  - destruct (IH (Z.max d y)) as [Hin Hle]. split.
    + apply elem_of_cons in Hin as [Heq|Hin]; [|right; by right].
      rewrite Heq. destruct (Z.max_spec d y) as [[_ ->]|[_ ->]];
        [right; by left | by left].
    + intros x Hx.
      assert (Z.max d y <= foldl Z.max (Z.max d y) l)%Z
        by (apply Hle; by left).
      apply elem_of_cons in Hx as [->|Hx]; [lia|].
      apply elem_of_cons in Hx as [->|Hx]; [lia|]. apply Hle. by right.
Qed.

(** The first and the last day of a table that has a day. *)
Lemma min_max_day (l : list (gmap string cell)) :
  omap day l ≠ [] →
  ∃ lo hi,
    min_day (map annotate l) = Some lo ∧ max_day (map annotate l) = Some hi
    ∧ lo ∈ omap day l ∧ hi ∈ omap day l
    ∧ ∀ d, d ∈ omap day l → (lo <= d <= hi)%Z.
Proof.
  intros Hne. unfold min_day, max_day.
  assert (Hdays : omap day_of (map annotate l) = omap day l).
  { clear Hne. induction l as [|r l' IH]; [reflexivity|].
    cbn [map omap list_omap]. by rewrite day_of_annotate, IH. }
  rewrite Hdays. destruct (omap day l) as [|d ds]; [done|].
  destruct (foldl_min_least d ds) as [Hin1 Hle1].
  destruct (foldl_max_greatest d ds) as [Hin2 Hle2].
  eexists _, _. split; [reflexivity|]. split; [reflexivity|].
  split; [exact Hin1|]. split; [exact Hin2|].
  intros x Hx. split; [by apply Hle1 | by apply Hle2].
Qed.

Lemma omap_day_annotate (l : list (gmap string cell)) :
  omap day_of (map annotate l) = omap day l.
Proof.
  induction l as [|r l IH]; [reflexivity|].
  cbn [map omap list_omap]. by rewrite day_of_annotate, IH.
Qed.

Lemma day_floor (r : gmap string cell) d : day r = Some d → floor_day d = d.
Proof.
  unfold day. destruct (get r "time"); simpl; try discriminate.
  intros [= <-]. apply floor_day_idem.
Qed.

Lemma elem_of_days (l : list (gmap string cell)) d :
  d ∈ omap day l ↔ ∃ r, r ∈ l ∧ day r = Some d.
Proof. apply list_elem_of_omap. Qed.

Lemma no_window (l : list (gmap string cell)) :
  List.filter (in_window None None) l = l.
Proof. induction l as [|r l IH]; [reflexivity|]. simpl. by rewrite IH. Qed.

Lemma date_range_one d : date_range d d = [d].
Proof.
  unfold date_range. rewrite Z.sub_diag.
  change (Z.to_nat (0 / 86400 + 1)) with 1%nat. cbn [seq map].
  f_equal. lia.
Qed.

Lemma fill_days_unbounded now (df res : DataFrame) l :
  rows df = map annotate l → "time" ∈ columns res →
  fill_days None None now df res
  = match l with
    | [] => Return (fill_range (date_range (floor_day now)
                                  (floor_day (floor_day now))) res)
    | _ => match min_day (map annotate l), max_day (map annotate l) with
           | Some lo, Some hi =>
               Return (fill_range (date_range (floor_day lo) (floor_day hi))
                         res)
           | _, _ => Raise (ValueError "Neither `start` nor `end` can be NaT")
           end
    end.
Proof.
  intros Hrows Htime. unfold fill_days, fill_range, mbind, outcome_bind, obind.
  rewrite Hrows. destruct l as [|r l]; cbn [map].
  - by rewrite (require_column_present _ _ Htime).
  - destruct (min_day (annotate r :: map annotate l)); [|reflexivity].
    destruct (max_day (annotate r :: map annotate l)); [|reflexivity].
    by rewrite (require_column_present _ _ Htime).
Qed.

Section UnboundedFacts.

Variable to_numeric : pyval → option R.
Variable to_datetime : pyval → option Z.

#[local] Abbreviation current' := (current to_numeric to_datetime).
#[local] Abbreviation aggregate_daily' :=
  (aggregate_daily to_numeric to_datetime).

(** A reduction that returns leaves a table of days: distinct days of rows
    of the date window, in ascending order. *)
Lemma aggregate_frame_table mode threshold energy_col start end_ now df res :
  aggregate_frame to_numeric mode threshold energy_col false start end_ now df
  = Return res →
  ∃ ks, day_table ks res ∧ StronglySorted Z.lt ks
        ∧ ∀ d, d ∈ ks →
               d ∈ omap day (List.filter (in_window start end_) (rows df)).
Proof.
  unfold aggregate_frame, mbind, outcome_bind, obind.
  unfold require_column at 1. case_decide as Htime; [|discriminate].
  cbv zeta.
  pose proof (windowed_rows start end_ df) as Hrows.
  pose proof (windowed_columns start end_ df) as Hcols.
  set (df' := between _ _ _ _ _ _) in *.
  assert (Hkeys : ∀ d, d ∈ group_keys (rows df') →
            d ∈ omap day (List.filter (in_window start end_) (rows df))).
  { intros d. by rewrite Hrows, group_keys_annotate, elem_of_days. }
  assert (Htime' : "time" ∈ columns df').
  { rewrite Hcols. by apply add_column_mono. }
  assert (Hday : "__day" ∈ columns df').
  { rewrite Hcols. apply add_column_elem. }
  repeat case_decide.
  - destruct (daily_max_mag df') as [res'|] eqn:H'; intros [= <-].
    exists (group_keys (rows df')).
    split; [by apply daily_max_mag_days|].
    split; [apply group_keys_sorted | exact Hkeys].
  - destruct (daily_mag_threshold threshold df') as [res'|] eqn:H';
      intros [= <-].
    destruct (daily_mag_threshold_days _ _ _ Htime' H')
      as (ks & Htab & Hsort & Hsub).
    exists ks. split; [exact Htab|]. split; [exact Hsort|]. auto.
  - destruct (daily_energy to_numeric true energy_col df') as [res'|] eqn:H';
      intros [= <-].
    exists (group_keys (rows df')).
    split; [by eapply daily_energy_days|].
    split; [apply group_keys_sorted | exact Hkeys].
  - destruct (daily_energy to_numeric false energy_col df') as [res'|] eqn:H';
      intros [= <-].
    exists (group_keys (rows df')).
    split; [by eapply daily_energy_days|].
    split; [apply group_keys_sorted | exact Hkeys].
  - discriminate.
Qed.

(** What a call with gap filling and without bounds does, once the call
    without gap filling has returned the reduced table [res]. *)
Lemma aggregate_daily_filled mode threshold energy_col now ds res :
  mode ≠ "all_events" →
  aggregate_frame to_numeric mode threshold energy_col false None None now
    (current' ds) = Return res →
  "time" ∈ columns res
  ∧ aggregate_daily' mode threshold energy_col true None None now ds
    = match fill_days None None now
              (between ge_stamp le_stamp "__day" None None
                 (set_column "__day" (λ r, day_cell (get r "time"))
                    (current' ds))) res with
      | Return out => (Return tt, {| _raw := _raw ds; _df := Some out |})
      | Raise e => (Raise e, {| _raw := _raw ds; _df := Some (current' ds) |})
      end.
Proof.
  intros Hmode Hres.
  destruct (aggregate_frame_table _ _ _ _ _ _ _ _ Hres)
    as (ks & (Htime & _) & _).
  split; [exact Htime|].
  rewrite aggregate_daily_run by exact Hmode.
  by rewrite (aggregate_frame_fill _ _ _ _ _ _ _ _ _ Hres).
Qed.


(** Gap filling of an empty table, without bounds: the call returns one row,
    for the day of the call, with [event_count] 0 and a null magnitude. *)
Theorem gap_filling_of_nothing mode threshold energy_col now ds ds0 :
  mode ≠ "all_events" →
  aggregate_daily' mode threshold energy_col false None None now ds
  = (Return tt, ds0) →
  rows (current' ds) = [] →
  ∃ ds1 row,
    aggregate_daily' mode threshold energy_col true None None now ds
    = (Return tt, ds1)
    ∧ rows (current' ds1) = [row]
    ∧ get row "time" = Stamp (floor_day now)
    ∧ get row "event_count" = Count 0
    ∧ get row "magnitude" = NA.
Proof.
  intros Hmode Hrun Hnil.
  rewrite aggregate_daily_run in Hrun by exact Hmode.
  destruct (aggregate_frame to_numeric mode threshold energy_col false None
              None now (current' ds)) as [res|] eqn:Hres; [|discriminate].
  injection Hrun as <-.
  destruct (aggregate_daily_filled _ _ _ _ _ _ Hmode Hres) as [Htime ->].
  destruct (aggregate_frame_table _ _ _ _ _ _ _ _ Hres)
    as (ks & (_ & Htimes & _) & _ & Hin).
  rewrite Hnil in Hin. cbn in Hin.
  pose proof (windowed_rows None None (current' ds)) as Hrows.
  rewrite Hnil in Hrows.
  cbn [List.filter map fmap option_fmap option_map] in Hrows.
  rewrite (fill_days_unbounded now _ res [] Hrows Htime).
  rewrite floor_day_idem, date_range_one.
  assert (Hres0 : rows res = []).
  { destruct ks as [|d ks]; [|by destruct (not_elem_of_nil d); apply Hin; left].
    by destruct (rows res). }
  pose proof (fill_range_rows [floor_day now] res) as Hfilled.
  rewrite Hres0 in Hfilled. cbn [List.find] in Hfilled.
  apply Forall2_cons_inv_l in Hfilled
    as (row & rest & (Ht & Hc & Hm & _) & Hrest%Forall2_nil_inv_l & Heq).
  subst rest. eexists _, row. split; [reflexivity|].
  rewrite current_stored. split; [exact Heq|]. by split.
Qed.

(** Gap filling without bounds of a table that has rows but no time at all:
    the range of days has no ends, the call raises a [ValueError] and the
    table stays as it was. *)
Theorem gap_filling_without_time mode threshold energy_col now ds ds0 :
  mode ≠ "all_events" →
  aggregate_daily' mode threshold energy_col false None None now ds
  = (Return tt, ds0) →
  rows (current' ds) ≠ [] →
  omap day (rows (current' ds)) = [] →
  aggregate_daily' mode threshold energy_col true None None now ds
  = (Raise (ValueError "Neither `start` nor `end` can be NaT"),
     {| _raw := _raw ds; _df := Some (current' ds) |}).
Proof.
  intros Hmode Hrun Hne Hdays.
  rewrite aggregate_daily_run in Hrun by exact Hmode.
  destruct (aggregate_frame to_numeric mode threshold energy_col false None
              None now (current' ds)) as [res|] eqn:Hres; [|discriminate].
  destruct (aggregate_daily_filled _ _ _ _ _ _ Hmode Hres) as [Htime ->].
  pose proof (windowed_rows None None (current' ds)) as Hrows.
  rewrite no_window in Hrows. cbn [fmap option_fmap option_map] in Hrows.
  rewrite (fill_days_unbounded now _ res _ Hrows Htime).
  destruct (rows (current' ds)) as [|r0 rest]; [done|].
  unfold min_day. by rewrite omap_day_annotate, Hdays.
Qed.

End UnboundedFacts.

(** ** What every call keeps *)

Lemma fill_days_time start end_ now df res0 res :
  fill_days start end_ now df res0 = Return res → "time" ∈ columns res.
Proof.
  unfold fill_days, mbind, outcome_bind, obind.
  repeat match goal with
         | |- context [match ?x with _ => _ end] => destruct x
         end;
    try discriminate; intros [= <-]; cbn [set_column columns];
    apply add_column_mono; try case_decide; cbn [fillna reindex columns];
    by left.
Qed.

Section CallFacts.

Variable to_numeric : pyval → option R.
Variable to_datetime : pyval → option Z.
Variable str_lower : string → string.
Variable py_str : pyval → string.

#[local] Abbreviation current' := (current to_numeric to_datetime).
#[local] Abbreviation run_call' :=
  (run_call to_numeric to_datetime str_lower py_str).

(** A gap-filled result is the gap filling of the result without it. *)
Lemma aggregate_frame_filled mode threshold energy_col start end_ now df res :
  aggregate_frame to_numeric mode threshold energy_col true start end_ now df
  = Return res →
  ∃ res0,
    aggregate_frame to_numeric mode threshold energy_col false start end_ now
      df = Return res0
    ∧ fill_days start end_ now
        (between ge_stamp le_stamp "__day" (floor_day <$> start)
           (floor_day <$> end_)
           (set_column "__day" (λ r, day_cell (get r "time")) df))
        res0 = Return res.
Proof.
  unfold aggregate_frame, mbind, outcome_bind, obind.
  destruct (require_column "time" df); [|discriminate]. cbv zeta.
  match goal with
  | |- match ?x with Return _ => _ | Raise _ => _ end = _ → _ =>
      destruct x as [res0|]
  end; [|discriminate].
  intros H. by exists res0.
Qed.

Lemma aggregate_frame_time mode threshold energy_col fill start end_ now df
    res :
  aggregate_frame to_numeric mode threshold energy_col fill start end_ now df
  = Return res →
  "time" ∈ columns res.
Proof.
  destruct fill.
  - intros (res0 & _ & H)%aggregate_frame_filled. by eapply fill_days_time.
  - intros (ks & (H & _) & _)%aggregate_frame_table. exact H.
Qed.

Lemma run_call_keeps (c : call) (ds : Dataset) :
  "time" ∈ columns (current' ds) →
  _raw (run_call' c ds) = _raw ds ∧ "time" ∈ columns (current' (run_call' c ds)).
Proof.
  intros Htime. destruct c as [|path fmt|f|a b out_col|mode th ec fill s e now];
    cbn [run_call].
  - by rewrite to_dataframe_current.
  - unfold save. rewrite to_dataframe_current. by repeat case_decide.
  - rewrite apply_filter_run. by case_decide.
  - destruct (decide ("magnitude" ∈ columns (current' ds))) as [Hmag|Hmag].
    + rewrite (convert_energy_run _ _ _ _ _ ds Hmag). cbn [snd].
      split; [reflexivity|].
      rewrite current_stored. by apply add_column_mono.
    + unfold convert_energy, mbind, M_bind, bind. cbn beta.
      rewrite to_dataframe_current. unfold lift, convert_energy_frame.
      by rewrite (require_column_absent _ _ Hmag).
  - destruct (decide (mode = "all_events")) as [->|Hmode].
    + unfold aggregate_daily. by rewrite decide_True.
    + rewrite aggregate_daily_run by exact Hmode.
      destruct (aggregate_frame _ _ _ _ _ _ _ _ _) as [res|] eqn:Hres;
        [|done].
      cbn [snd]. split; [reflexivity|]. rewrite current_stored.
      by eapply aggregate_frame_time.
Qed.


End CallFacts.

(** ** An energy mode after an energy mode *)

Lemma fill_days_columns start end_ now df res0 res :
  fill_days start end_ now df res0 = Return res →
  columns res
  = add_column "event_count" ("time" :: drop_column "time" (columns res0)).
Proof.
  unfold fill_days, mbind, outcome_bind, obind.
  repeat match goal with
         | |- context [match ?x with _ => _ end] => destruct x
         end;
    try discriminate; intros [= <-]; cbn [set_column columns];
    try case_decide; reflexivity.
Qed.

Section RepeatFacts.

Variable to_numeric : pyval → option R.
Variable to_datetime : pyval → option Z.

#[local] Abbreviation current' := (current to_numeric to_datetime).
#[local] Abbreviation aggregate_daily' :=
  (aggregate_daily to_numeric to_datetime).

Lemma daily_energy_columns use_sum energy_col df res :
  daily_energy to_numeric use_sum energy_col df = Return res →
  columns res = ["time"; "energy_J"; "event_count"; "magnitude"].
Proof.
  unfold daily_energy, mbind, outcome_bind, obind.
  destruct (_ensure_energy to_numeric energy_col df) as [df'|];
    [|discriminate].
  destruct (require_column "event_id" df'); [|discriminate].
  destruct (require_column "magnitude" df'); [|discriminate].
  by intros [= <-].
Qed.

Lemma energy_frame_columns (use_sum : bool) threshold energy_col fill start
    end_ now df res :
  aggregate_frame to_numeric
    (if use_sum then "daily_energy_sum" else "daily_energy_max") threshold
    energy_col fill start end_ now df = Return res →
  columns res = ["time"; "energy_J"; "event_count"; "magnitude"].
Proof.
  assert (Hplain : ∀ res0,
            aggregate_frame to_numeric
              (if use_sum then "daily_energy_sum" else "daily_energy_max")
              threshold energy_col false start end_ now df = Return res0 →
            columns res0 = ["time"; "energy_J"; "event_count"; "magnitude"]).
  { intros res0. unfold aggregate_frame, mbind, outcome_bind, obind.
    destruct (require_column "time" df); [|discriminate]. cbv zeta.
    destruct use_sum; rewrite !decide_False by discriminate;
      rewrite decide_True by reflexivity;
      (destruct (daily_energy _ _ _ _) as [r|] eqn:Hr; [|discriminate]);
      intros [= <-]; by eapply daily_energy_columns. }
  destruct fill; [|apply Hplain].
  intros (res0 & H0 & Hfill)%aggregate_frame_filled.
  rewrite (fill_days_columns _ _ _ _ _ _ Hfill), (Hplain _ H0).
  reflexivity.
Qed.

(** An energy aggregation cannot be repeated.  The table an energy mode
    leaves, gap-filled or not, has the four columns [time], [energy_J],
    [event_count] and [magnitude] and so no [event_id] column to count: a
    further call in an energy mode raises [KeyError] for [event_id] and
    leaves the table as it is. *)
Theorem energy_mode_twice (sum1 sum2 : bool) th1 th2 col1 col2 fill1 fill2
    start1 start2 end1 end2 now1 now2 (ds ds1 : Dataset) :
  col2 ≠ "event_id" →
  aggregate_daily'
    (if sum1 then "daily_energy_sum" else "daily_energy_max")
    th1 col1 fill1 start1 end1 now1 ds = (Return tt, ds1) →
  columns (current' ds1) = ["time"; "energy_J"; "event_count"; "magnitude"]
  ∧ aggregate_daily'
      (if sum2 then "daily_energy_sum" else "daily_energy_max")
      th2 col2 fill2 start2 end2 now2 ds1
    = (Raise (KeyError "event_id"), ds1).
Proof.
  intros Hcol Hrun.
  rewrite aggregate_daily_run in Hrun by (destruct sum1; discriminate).
  destruct (aggregate_frame _ _ _ _ _ _ _ _ _) as [res|] eqn:Hres;
    [|discriminate].
  injection Hrun as <-. apply energy_frame_columns in Hres.
  rewrite current_stored. split; [exact Hres|].
  rewrite aggregate_daily_run by (destruct sum2; discriminate).
  rewrite current_stored. cbn [_raw].
  assert (Hraise : aggregate_frame to_numeric
                     (if sum2 then "daily_energy_sum" else "daily_energy_max")
                     th2 col2 fill2 start2 end2 now2 res
                   = Raise (KeyError "event_id")); [|by rewrite Hraise].
  unfold aggregate_frame.
  rewrite require_column_present by (rewrite Hres; compute_done).
  unfold mbind at 1, outcome_bind, obind. cbv zeta.
  pose proof (windowed_columns start2 end2 res) as Hcols.
  set (df' := between _ _ _ _ _ _) in *. rewrite Hres in Hcols.
  assert (Hraise : ∀ b, daily_energy to_numeric b col2 df'
                        = Raise (KeyError "event_id")).
  { intros b. unfold daily_energy, _ensure_energy.
    destruct (decide (col2 ∈ columns df')) as [Hin|Hin].
    - unfold mbind, outcome_bind, obind.
      rewrite require_column_absent; [reflexivity|].
      rewrite Hcols. compute_done.
    - unfold convert_energy_frame, mbind, outcome_bind, obind.
      rewrite require_column_present by (rewrite Hcols; compute_done).
      rewrite require_column_absent; [reflexivity|].
      cbn [set_column columns]. rewrite Hcols. unfold add_column.
      case_decide as Hc; [|clear Hc].
      + intros H. apply Hin. by rewrite Hcols.
      + intros [H|H%list_elem_of_singleton]%elem_of_app; [|congruence].
        revert H. compute_done. }
  destruct sum2; rewrite !decide_False by discriminate;
    rewrite decide_True by reflexivity; by rewrite Hraise.
Qed.

End RepeatFacts.

(** ** The further theorems at sample inputs *)

Lemma filter_again_witness :
  "magnitude" ∈ columns (current plain_numeric plain_datetime one_quiet_event)
  ∧ ∃ ds1,
      apply_filter plain_numeric plain_datetime plain_lower plain_str
        (ByMagnitude (Some 1%R) None) one_quiet_event = (Return tt, ds1)
      ∧ apply_filter plain_numeric plain_datetime plain_lower plain_str
          (ByMagnitude (Some 1%R) None) ds1 = (Return tt, ds1).
Proof.
  split; [exact one_quiet_event_magnitude|].
  destruct (filter_again plain_numeric plain_datetime plain_lower plain_str
              (ByMagnitude (Some 1%R) None) one_quiet_event
              one_quiet_event_magnitude)
    as (ds1 & H1 & _ & _ & _ & _ & H2).
  exists ds1. split; [exact H1 | exact H2].
Defined.

Lemma convert_energy_overwrites_witness :
  "energy_J" ≠ "magnitude"
  ∧ (convert_energy plain_numeric plain_datetime 1 2 "energy_J"
       ≫= λ _, convert_energy plain_numeric plain_datetime 1.44 5.24
                 "energy_J") one_quiet_event
    = convert_energy plain_numeric plain_datetime 1.44 5.24 "energy_J"
        one_quiet_event.
Proof.
  assert (H : "energy_J" ≠ "magnitude") by discriminate.
  split; [exact H|].
  exact (convert_energy_overwrites plain_numeric plain_datetime 1 2 1.44 5.24
           "energy_J" one_quiet_event H).
Defined.


Lemma convert_energy_filter_commute_witness :
  "energy_J" ≠ "time"
  ∧ "magnitude" ∈ columns (current plain_numeric plain_datetime one_quiet_event)
  ∧ "time" ∈ columns (current plain_numeric plain_datetime one_quiet_event)
  ∧ ∃ ds',
      (apply_filter plain_numeric plain_datetime plain_lower plain_str
         (ByDate (Some 0%Z) None)
       ≫= λ _, convert_energy plain_numeric plain_datetime 1.44 5.24
                 "energy_J") one_quiet_event = (Return tt, ds')
      ∧ (convert_energy plain_numeric plain_datetime 1.44 5.24 "energy_J"
         ≫= λ _, apply_filter plain_numeric plain_datetime plain_lower
                   plain_str (ByDate (Some 0%Z) None)) one_quiet_event
        = (Return tt, ds').
Proof.
  assert (H : "energy_J" ≠ "time") by discriminate.
  split; [exact H|]. split; [exact one_quiet_event_magnitude|].
  split; [exact one_quiet_event_time|].
  exact (convert_energy_filter_commute plain_numeric plain_datetime plain_lower
           plain_str 1.44 5.24 "energy_J" (ByDate (Some 0%Z) None)
           one_quiet_event H one_quiet_event_magnitude one_quiet_event_time).
Defined.




Lemma two_anonymous_days_days :
  omap day (rows (current plain_numeric plain_datetime two_anonymous_days))
  = [0; 172800]%Z.
Proof. vm_compute. reflexivity. Qed.

Lemma one_undated_event_rows :
  rows (current plain_numeric plain_datetime one_undated_event) ≠ [].
Proof.
  intros H. apply (f_equal length) in H.
  unfold current, one_undated_event in H. cbn [_df from_records _raw] in H.
  rewrite build_length in H. discriminate.
Qed.


Lemma gap_filling_of_nothing_witness :
  "daily_energy_sum" ≠ "all_events"
  ∧ rows (current plain_numeric plain_datetime (from_records [])) = []
  ∧ ∃ ds1 row,
      aggregate_daily plain_numeric plain_datetime "daily_energy_sum" None
        "energy_J" true None None 100000 (from_records []) = (Return tt, ds1)
      ∧ rows (current plain_numeric plain_datetime ds1) = [row]
      ∧ get row "time" = Stamp (floor_day 100000)
      ∧ get row "event_count" = Count 0
      ∧ get row "magnitude" = NA.
Proof.
  assert (H1 : "daily_energy_sum" ≠ "all_events") by discriminate.
  assert (H2 : aggregate_daily plain_numeric plain_datetime "daily_energy_sum"
                 None "energy_J" false None None 100000 (from_records [])
               = (Return tt,
                  (aggregate_daily plain_numeric plain_datetime
                     "daily_energy_sum" None "energy_J" false None None 100000
                     (from_records [])).2)).
  { vm_compute. reflexivity. }
  assert (H3 : rows (current plain_numeric plain_datetime (from_records []))
               = []).
  { vm_compute. reflexivity. }
  split; [exact H1|]. split; [exact H3|].
  exact (gap_filling_of_nothing plain_numeric plain_datetime
           "daily_energy_sum" None "energy_J" 100000 (from_records []) _
           H1 H2 H3).
Defined.

Lemma gap_filling_without_time_witness :
  "daily_max_mag" ≠ "all_events"
  ∧ rows (current plain_numeric plain_datetime one_undated_event) ≠ []
  ∧ omap day (rows (current plain_numeric plain_datetime one_undated_event))
    = []
  ∧ aggregate_daily plain_numeric plain_datetime "daily_max_mag" None
      "energy_J" true None None 0 one_undated_event
    = (Raise (ValueError "Neither `start` nor `end` can be NaT"),
       {| _raw := _raw one_undated_event;
          _df := Some (current plain_numeric plain_datetime
                         one_undated_event) |}).
Proof.
  assert (H1 : "daily_max_mag" ≠ "all_events") by discriminate.
  assert (H2 : aggregate_daily plain_numeric plain_datetime "daily_max_mag"
                 None "energy_J" false None None 0 one_undated_event
               = (Return tt,
                  (aggregate_daily plain_numeric plain_datetime
                     "daily_max_mag" None "energy_J" false None None 0
                     one_undated_event).2)).
  { vm_compute. reflexivity. }
  pose proof one_undated_event_rows as H3.
  assert (H4 : omap day (rows (current plain_numeric plain_datetime
                                 one_undated_event)) = []).
  { vm_compute. reflexivity. }
  split; [exact H1|]. split; [exact H3|]. split; [exact H4|].
  exact (gap_filling_without_time plain_numeric plain_datetime "daily_max_mag"
           None "energy_J" 0 one_undated_event _ H1 H2 H3 H4).
Defined.

Lemma energy_mode_twice_witness :
  "energy_J" ≠ "event_id"
  ∧ ∃ ds1,
      aggregate_daily plain_numeric plain_datetime "daily_energy_sum" None
        "energy_J" false None None 0 one_quiet_event = (Return tt, ds1)
      ∧ columns (current plain_numeric plain_datetime ds1)
        = ["time"; "energy_J"; "event_count"; "magnitude"]
      ∧ aggregate_daily plain_numeric plain_datetime "daily_energy_max" None
          "energy_J" true None None 0 ds1
        = (Raise (KeyError "event_id"), ds1).
Proof.
  assert (H1 : "energy_J" ≠ "event_id") by discriminate.
  assert (H2 : aggregate_daily plain_numeric plain_datetime "daily_energy_sum"
                 None "energy_J" false None None 0 one_quiet_event
               = (Return tt,
                  (aggregate_daily plain_numeric plain_datetime
                     "daily_energy_sum" None "energy_J" false None None 0
                     one_quiet_event).2)).
  { vm_compute. reflexivity. }
  split; [exact H1|]. eexists. split; [exact H2|].
  exact (energy_mode_twice plain_numeric plain_datetime true false None None
           "energy_J" "energy_J" false true None None None None 0 0
           one_quiet_event _ H1 H2).
Defined.

(** * Properties of the service client *)

(** ** The validators *)

Ltac split_Rleb :=
  repeat match goal with
    | |- context [Rleb ?x ?y] =>
        let H := fresh "H" in
        destruct (Rleb x y) eqn:H;
        [apply Rleb_le in H
        |apply not_true_iff_false in H; rewrite Rleb_le in H];
        cbn [negb andb orb]
    end.

Lemma validate_bbox_raises bbox e :
  _validate_bbox bbox = Err e → ∃ msg, e = ApiValueError msg.
Proof.
  destruct bbox as [[[min_lat min_lon] max_lat] max_lon].
  unfold _validate_bbox. split_Rleb; intros [= <-]; by eexists.
Qed.

Lemma validate_radius_raises radius e :
  _validate_radius radius = Err e → ∃ msg, e = ApiValueError msg.
Proof.
  destruct radius as [[lat lon] r_km].
  unfold _validate_radius. split_Rleb; intros [= <-]; by eexists.
Qed.

(** [_validate_bbox] accepts exactly the boxes that lie within the ranges of
    latitude and longitude and have a positive extent in both directions;
    every other box is refused with a [ValueError]. *)
Theorem validate_bbox_accepts (min_lat min_lon max_lat max_lon : R) :
  (_validate_bbox (min_lat, min_lon, max_lat, max_lon) = Ok tt
   ↔ (-90 <= min_lat)%R ∧ (min_lat < max_lat)%R ∧ (max_lat <= 90)%R
     ∧ (-180 <= min_lon)%R ∧ (min_lon < max_lon)%R ∧ (max_lon <= 180)%R)
  ∧ ∀ e, _validate_bbox (min_lat, min_lon, max_lat, max_lon) = Err e →
         ∃ msg, e = ApiValueError msg.
Proof.
  split; [|intros e; apply validate_bbox_raises]. unfold _validate_bbox.
  split_Rleb; (split; [try discriminate; intros _; lra|]);
    intros; try reflexivity; exfalso; lra.
Qed.


(** ** The base URL *)

Lemma rstrip_slash_slash s : rstrip_slash (s +:+ "/") = rstrip_slash s.
Proof.
  induction s as [|c s IH]; [reflexivity|].
  change (String c s +:+ "/") with (String c (s +:+ "/")).
  cbn [rstrip_slash]. by rewrite IH.
Qed.

Lemma rstrip_slash_stripped s s' : rstrip_slash s ≠ s' +:+ "/".
Proof.
  revert s'. induction s as [|c s IH]; intros s'.
  - destruct s'; discriminate.
  - cbn [rstrip_slash]. destruct (rstrip_slash s) as [|a r] eqn:Hr.
    + destruct (String.eqb (String c EmptyString) "/") eqn:Hc.
      * destruct s'; discriminate.
      * destruct s' as [|c' s'].
        -- intros [= ->]. discriminate.
        -- intros [= _ H]. destruct s'; discriminate.
    + destruct s' as [|c' s'].
      * discriminate.
      * intros [= _ H]. by apply (IH s').
Qed.

Lemma rstrip_slash_idem s : rstrip_slash (rstrip_slash s) = rstrip_slash s.
Proof.
  induction s as [|c s IH]; [reflexivity|]. cbn [rstrip_slash].
  destruct (rstrip_slash s) as [|a r] eqn:Hr.
  - destruct (String.eqb (String c EmptyString) "/") eqn:Hc; [reflexivity|].
    cbn [rstrip_slash]. by rewrite Hc.
  - change (rstrip_slash (String c (String a r)))
      with (match rstrip_slash (String a r) with
            | EmptyString =>
                if String.eqb (String c EmptyString) "/" then EmptyString
                else String c EmptyString
            | t => String c t
            end).
    by rewrite IH.
Qed.

(** The constructor strips the slashes that end the base URL: the object
    never holds a base URL that ends with a slash, a base URL given with one
    more slash at its end gives the same request URLs, and every request URL
    is the stripped base URL, the API root and the endpoint. *)
Theorem url_of_base (url : string) (seconds : R) (c : option client)
    (endpoint : string) :
  _url (__init__ url seconds c) endpoint
  = rstrip_slash url +:+ "/apiv2" +:+ endpoint
  ∧ _url (__init__ (url +:+ "/") seconds c) endpoint
    = _url (__init__ url seconds c) endpoint
  ∧ (∀ s, base_url (__init__ url seconds c) ≠ s +:+ "/")
  ∧ __init__ (base_url (__init__ url seconds c)) seconds c
    = __init__ url seconds c.
Proof.
  unfold _url, __init__. cbn [base_url].
  split; [reflexivity|]. split; [by rewrite rstrip_slash_slash|].
  split; [apply rstrip_slash_stripped|]. by rewrite rstrip_slash_idem.
Qed.

(** ** The logger *)

(** [get_logger] gives the library logger a handler when it has none and
    otherwise leaves it alone, so that calling it again changes nothing;
    [configure_logging] leaves exactly one handler whatever the logger had,
    so that configuring twice does not double the log lines, and
    [get_logger] keeps a configured logger as it is. *)
Theorem logger_handlers (logger : Logger) (level level' : Z)
    (fmt fmt' : option string) :
  handlers (get_logger logger) ≠ []
  ∧ get_logger (get_logger logger) = get_logger logger
  ∧ (handlers logger ≠ [] → get_logger logger = logger)
  ∧ length (handlers (configure_logging level fmt logger)) = 1
  ∧ get_logger (configure_logging level fmt logger)
    = configure_logging level fmt logger
  ∧ configure_logging level fmt (configure_logging level' fmt' logger)
    = configure_logging level fmt logger.
Proof.
  unfold get_logger, configure_logging.
  destruct logger as [[|h hs] lvl]; cbn [handlers logger_level];
    repeat split; done.
Qed.

(** ** Requests *)

Section ServiceFacts.

Variable send : nat → string → gmap string pyval → sent_reply.
Variable date datetime : Type.
Variable midnight : date → datetime.
Variable in_zone : datetime → datetime.
Variable strftime : datetime → string.
Variable minus_hours : datetime → Z → datetime.

#[local] Abbreviation _to_iso8601' :=
  (_to_iso8601 date datetime midnight in_zone strftime).
#[local] Abbreviation fetch_by_filter' :=
  (fetch_by_filter send date datetime midnight in_zone strftime).
#[local] Abbreviation fetch_latest' :=
  (fetch_latest send date datetime midnight in_zone strftime minus_hours).

Lemma get_json_state url params st :
  (_get_json send url params st).2 = requested url params st.
Proof.
  unfold _get_json, _ensure_client, requested. destruct st as [api net].
  cbn [fst snd requests clients_created clients_closed].
  destruct (send (length (requests net)) url params) as [resp|repr];
    [|reflexivity].
  repeat case_decide; try reflexivity.
  destruct (json_body resp) as [[]|]; reflexivity.
Qed.

(** One call of [_get_json]: it creates a client of its own, which it keeps
    and does not close, and sends one request through it, whatever client
    the object held.  It returns only on a reply of status 200 whose body
    decodes to a list or to a dict with the key [data], and then the list or
    the value under [data]; a reply of status 204 raises like any other
    status that is not 200; every failure is a [RuntimeError]. *)
Theorem get_json_outcome (url : string) (params : gmap string pyval)
    (st : AfadAPI * Net) :
  let res := _get_json send url params st in
  let answer := send (length (requests st.2)) url params in
  res.2 = requested url params st
  ∧ (∀ j, res.1 = Ok j →
          ∃ resp, answer = Responded resp ∧ status_code resp = 200%Z
                  ∧ (json_body resp = Some (JWrapped j)
                     ∨ ∃ items, j = JList items ∧ json_body resp = Some j))
  ∧ (∀ e, res.1 = Err e → ∃ msg, e = RuntimeError msg)
  ∧ (∀ resp, answer = Responded resp → status_code resp ≠ 200%Z →
             ∃ msg, res.1 = Err (RuntimeError msg))
  ∧ (∀ resp, answer = Responded resp → status_code resp = 204%Z →
             ∃ msg, res.1 = Err (RuntimeError msg)).
Proof.
  cbv zeta. split; [apply get_json_state|].
  unfold _get_json, _ensure_client. destruct st as [api net].
  cbn [fst snd requests clients_created clients_closed].
  destruct (send (length (requests net)) url params) as [resp|repr].
  - destruct (decide (status_code resp ≠ 200%Z)) as [Hne|Heq%dec_stable].
    + cbn [fst]. split; [discriminate|]. split; [intros e [= <-]; by eexists|].
      split; intros resp' [= <-] _; by eexists.
    + rewrite decide_False by (rewrite Heq; discriminate).
      assert (H204 : ∀ r : reply json, ∀ resp', Responded resp = Responded resp' →
                status_code resp' = 204%Z → ∃ msg, r = Err (RuntimeError msg)).
      { intros r resp' [= <-] H. rewrite Heq in H. discriminate. }
      assert (Hnot : ∀ r : reply json, ∀ resp', Responded resp = Responded resp' →
                status_code resp' ≠ 200%Z → ∃ msg, r = Err (RuntimeError msg)).
      { intros r resp' [= <-] H. contradiction. }
      destruct (json_body resp) as [[items|d| |s|n]|] eqn:Hbody; cbn [fst];
        (split; [|split; [|split; [apply Hnot | apply H204]]]);
        try discriminate; try (intros e [= <-]; by eexists).
      * intros j [= <-]. exists resp. split; [reflexivity|].
        split; [exact Heq|]. right. by exists items.
      * intros j [= <-]. exists resp. split; [reflexivity|].
        split; [exact Heq|]. by left.
  - cbn [fst]. split; [discriminate|]. split; [intros e [= <-]; by eexists|].
    split; discriminate.
Qed.

Lemma get_json_pair url params st :
  _get_json send url params st
  = ((_get_json send url params st).1, requested url params st).
Proof. rewrite <- get_json_state. by destruct (_get_json send url params st). Qed.

Lemma get_json_raises url params st e :
  (_get_json send url params st).1 = Err e → ∃ msg, e = RuntimeError msg.
Proof.
  unfold _get_json, _ensure_client. destruct st as [api net].
  cbn [fst snd requests clients_created clients_closed].
  destruct (send (length (requests net)) url params) as [resp|repr];
    [|intros [= <-]; by eexists].
  repeat case_decide; try (intros [= <-]; by eexists); try discriminate.
  destruct (json_body resp) as [[]|]; try discriminate;
    intros [= <-]; by eexists.
Qed.

Lemma logged_len_no_value_error items msg :
  logged_len items ≠ Err (ApiValueError msg).
Proof. unfold logged_len. by destruct (has_len items). Qed.

Lemma filter_params_raises start_iso end_iso orderby limit bbox radius e :
  filter_params start_iso end_iso orderby limit bbox radius = Err e →
  ∃ msg, e = ApiValueError msg.
Proof.
  unfold filter_params. cbv zeta.
  destruct bbox as [[[[a b] c] d]|].
  - destruct (_validate_bbox (a, b, c, d)) as [[]|e'] eqn:Hv; [discriminate|].
    intros [= <-]. by eapply validate_bbox_raises.
  - destruct radius as [[[lat lon] r]|]; [|discriminate].
    destruct (_validate_radius (lat, lon, r)) as [[]|e'] eqn:Hv;
      [discriminate|].
    intros [= <-]. by eapply validate_radius_raises.
Qed.

(** [fetch_by_filter] checks its arguments before it touches the network:
    with both a box and a radius, with a box [_validate_bbox] refuses or
    with a radius [_validate_radius] refuses, it raises a [ValueError] and
    neither creates a client nor sends a request; and whenever it raises a
    [ValueError], nothing was created or sent. *)
Theorem fetch_by_filter_checks_first start end_ orderby limit bbox radius
    extra_params (st : AfadAPI * Net) :
  let res := fetch_by_filter' start end_ orderby limit bbox radius
               extra_params st in
  (∀ msg, res.1 = Err (ApiValueError msg) → res.2 = st)
  ∧ (is_Some bbox → is_Some radius →
     res = (Err (ApiValueError "Provide either 'bbox' or 'radius', not both."),
            st))
  ∧ (∀ b e, bbox = Some b → _validate_bbox b = Err e →
            res.2 = st ∧ ∃ msg, res.1 = Err (ApiValueError msg))
  ∧ (∀ c e, bbox = None → radius = Some c → _validate_radius c = Err e →
            res.2 = st ∧ ∃ msg, res.1 = Err (ApiValueError msg)).
Proof.
  cbv zeta. unfold fetch_by_filter. split; [|split; [|split]].
  - intros msg.
    destruct bbox as [b|], radius as [c|]; [done|..];
      (destruct (filter_params _ _ _ _ _ _) as [params|e]; [|done]);
      rewrite get_json_pair;
      (destruct (_get_json send _ _ st).1 as [items|e] eqn:Hres; cbn [fst];
       [intros H; by apply logged_len_no_value_error in H
       |intros [= ->]; by apply get_json_raises in Hres as [? ?]]).
  - by intros [b ->] [c ->].
  - intros b e -> Hv. destruct radius as [c|]; [by eauto|].
    unfold filter_params. cbv zeta. rewrite Hv.
    destruct (validate_bbox_raises _ _ Hv) as [msg ->]. by eauto.
  - intros c e -> -> Hv. unfold filter_params. cbv zeta. rewrite Hv.
    destruct (validate_radius_raises _ _ Hv) as [msg ->]. by eauto.
Qed.

(** Reading a key of a dict that was written to. *)
Ltac read_keys :=
  repeat match goal with
    | |- context [<[?a := ?v]> ?m !! ?a] => rewrite (lookup_insert_eq m a v)
    | |- context [<[?a := ?v]> ?m !! ?b] =>
        rewrite (lookup_insert_ne m a b v) by discriminate
    end.

Lemma fetch_by_filter_state start end_ orderby limit bbox radius extra_params
    st base :
  (bbox = None ∨ radius = None) →
  filter_params (_to_iso8601' start) (_to_iso8601' end_) orderby limit bbox
    radius = Ok base →
  (fetch_by_filter' start end_ orderby limit bbox radius extra_params st).2
  = requested (base_url st.1 +:+ "/apiv2/event/filter")
      (default ∅ extra_params ∪ base) st.
Proof.
  intros Hone Hbase. unfold fetch_by_filter. rewrite Hbase.
  assert (Hparams : match extra_params with
                    | Some extra => extra ∪ base
                    | None => base
                    end = default ∅ extra_params ∪ base).
  { destruct extra_params; [reflexivity|]. cbn [default].
    by rewrite (left_id_L ∅ (∪)). }
  rewrite Hparams, get_json_pair.
  destruct bbox, radius; [by destruct Hone|..];
    by destruct (_get_json send _ _ st).1.
Qed.

(** The request of [fetch_by_filter].  With at most one of the box and the
    radius, and that one valid, the call creates a client and sends one
    request through it, to the filter endpoint under the base URL.  Its
    parameters are [start], [end] and [orderby], [limit] when one is given,
    the four bounds of the box or the centre and the radii of the circle;
    a parameter given in [extra_params] replaces the one of the same name. *)
Theorem fetch_by_filter_sends start end_ orderby limit bbox radius
    extra_params (st : AfadAPI * Net) :
  (bbox = None ∨ radius = None) →
  (∀ b, bbox = Some b → _validate_bbox b = Ok tt) →
  (∀ c, radius = Some c → _validate_radius c = Ok tt) →
  let res := fetch_by_filter' start end_ orderby limit bbox radius
               extra_params st in
  ∃ base : gmap string pyval,
    res.2 = requested (base_url st.1 +:+ "/apiv2/event/filter")
              (default ∅ extra_params ∪ base) st
    ∧ base !! "start" = Some (PStr (_to_iso8601' start))
    ∧ base !! "end" = Some (PStr (_to_iso8601' end_))
    ∧ base !! "orderby" = Some (PStr orderby)
    ∧ base !! "limit" = PInt <$> limit
    ∧ (∀ min_lat min_lon max_lat max_lon,
         bbox = Some (min_lat, min_lon, max_lat, max_lon) →
         base !! "minlat" = Some (PFloat min_lat)
         ∧ base !! "minlon" = Some (PFloat min_lon)
         ∧ base !! "maxlat" = Some (PFloat max_lat)
         ∧ base !! "maxlon" = Some (PFloat max_lon))
    ∧ (∀ lat lon r_km,
         radius = Some (lat, lon, r_km) →
         base !! "lat" = Some (PFloat lat)
         ∧ base !! "lon" = Some (PFloat lon)
         ∧ base !! "maxrad" = Some (PFloat r_km)
         ∧ base !! "minrad" = Some (PInt 0))
    ∧ (∀ k v, extra_params ≫= (λ extra, extra !! k) = Some v →
              (default ∅ extra_params ∪ base) !! k = Some v).
Proof.
  intros Hone Hbox Hrad. cbv zeta.
  assert (Hextra : ∀ (base : gmap string pyval) k v,
            extra_params ≫= (λ extra, extra !! k) = Some v →
            (default ∅ extra_params ∪ base) !! k = Some v).
  { intros base k v H. destruct extra_params as [extra|]; cbn in H;
      [|discriminate].
    cbn [default]. by apply lookup_union_Some_l. }
  destruct bbox as [[[[a b] c] d]|]; [|destruct radius as [[[lat lon] r]|]].
  - destruct Hone as [Hone | ->]; [discriminate|]. eexists. split.
    { apply fetch_by_filter_state; [by right|]. unfold filter_params.
      cbv zeta. by rewrite (Hbox _ eq_refl). }
    destruct limit as [n|]; cbn [fmap option_fmap option_map];
      (do 4 (split; [by read_keys|]));
      (split; [intros ? ? ? ? [= <- <- <- <-]; read_keys; done|]);
      (split; [intros ? ? ? H; discriminate H | apply Hextra]).
  - eexists. split.
    { apply fetch_by_filter_state; [exact Hone|]. unfold filter_params.
      cbv zeta. by rewrite (Hrad _ eq_refl). }
    destruct limit as [n|]; cbn [fmap option_fmap option_map];
      (do 4 (split; [by read_keys|]));
      (split; [intros ? ? ? ? H; discriminate H|]);
      (split; [intros ? ? ? [= <- <- <-]; read_keys; done | apply Hextra]).
  - eexists. split.
    { apply fetch_by_filter_state; [exact Hone | reflexivity]. }
    destruct limit as [n|]; cbn [fmap option_fmap option_map];
      (do 4 (split; [by read_keys|]));
      (split; [intros ? ? ? ? H; discriminate H|]);
      (split; [intros ? ? ? H; discriminate H | apply Hextra]).
Qed.

Lemma requests_fold (body : list (string * gmap string pyval)) :
  ∀ (st : AfadAPI * Net) m,
    _client st.1 = Some (Created m) → clients_created st.2 = S m →
    let st' := foldl (λ s q, (_get_json send q.1 q.2 s).2) st body in
    _client st'.1 = Some (Created (m + length body))
    ∧ clients_created st'.2 = S (m + length body)
    ∧ clients_closed st'.2 = clients_closed st.2
    ∧ base_url st'.1 = base_url st.1
    ∧ requests st'.2
      = requests st.2 ++ imap (λ i q, (Created (S (m + i)), q.1, q.2)) body.
Proof.
  induction body as [|q body IH]; intros st m Hc Hn; cbv zeta.
  - cbn [foldl length imap]. rewrite Nat.add_0_r, app_nil_r. done.
  - cbn [foldl]. rewrite get_json_state.
    destruct (IH (requested q.1 q.2 st) (S m)) as (H1 & H2 & H3 & H4 & H5).
    { cbn [requested fst _client]. by rewrite Hn. }
    { cbn [requested snd clients_created]. by rewrite Hn. }
    cbn [length]. rewrite H1, H2, H3, H4, H5.
    cbn [requested fst snd clients_closed base_url requests].
    rewrite Hn, Nat.add_succ_r. repeat split.
    rewrite <- app_assoc. f_equal. cbn [imap app].
    rewrite Nat.add_0_r. f_equal. apply imap_ext. intros i x _.
    cbn. by rewrite Nat.add_succ_r.
Qed.

(** The clients of a [with] block.  The block creates a client when it is
    entered, but no request uses it: every request of the body creates a
    client of its own and sends through it, so that a body of k requests
    makes k + 1 clients; leaving the block closes the last one only. *)
Theorem with_block_clients (body : list (string * gmap string pyval))
    (st : AfadAPI * Net) :
  let n := clients_created st.2 in
  let st' := with_block send body st in
  _client st'.1 = None
  ∧ clients_created st'.2 = S (n + length body)
  ∧ clients_closed st'.2 = clients_closed st.2 ++ [Created (n + length body)]
  ∧ requests st'.2
    = requests st.2 ++ imap (λ i q, (Created (S (n + i)), q.1, q.2)) body.
Proof.
  cbv zeta. unfold with_block, __exit__, __enter__, close.
  destruct (requests_fold body (_ensure_client st).2 (clients_created st.2))
    as (H1 & H2 & H3 & _ & H5); [reflexivity..|].
  cbv zeta in H1, H2, H3, H5. rewrite H1.
  cbn [fst snd _client clients_created clients_closed requests].
  rewrite H2, H3, H5. done.
Qed.

(** The requests of [fetch_latest].  The first goes to the latest endpoint
    with the limit as its only parameter.  When it returns, its items are
    the result and nothing else is sent.  When it raises, the error is the
    result if [fallback_to_filter] is off; otherwise one more request goes
    to the filter endpoint, for the window of [window_hours] hours that ends
    now, newest first, with the same limit. *)
Theorem fetch_latest_requests (limit : option Z) (window_hours : Z)
    (fallback_to_filter : bool) (now : datetime) (st : AfadAPI * Net) :
  let url1 := base_url st.1 +:+ "/apiv2/event/latest" in
  let params1 : gmap string pyval :=
    match limit with
    | Some n => <["limit" := PInt n]> ∅
    | None => ∅
    end in
  let first := (_get_json send url1 params1 st).1 in
  let st1 := requested url1 params1 st in
  let res := fetch_latest' limit window_hours fallback_to_filter now st in
  (∀ items, first = Ok items → res = (logged_len items, st1))
  ∧ (∀ e, first = Err e → fallback_to_filter = false → res = (Err e, st1))
  ∧ (∀ e, first = Err e → fallback_to_filter = true →
       ∃ params2 : gmap string pyval,
         res.2 = requested (base_url st.1 +:+ "/apiv2/event/filter") params2
                   st1
         ∧ params2 !! "start"
           = Some (PStr (strftime (in_zone (minus_hours now window_hours))))
         ∧ params2 !! "end" = Some (PStr (strftime (in_zone now)))
         ∧ params2 !! "orderby" = Some (PStr "timedesc")
         ∧ params2 !! "limit" = PInt <$> limit).
Proof.
  cbv zeta. unfold fetch_latest. cbv zeta.
  change (_url st.1 ENDPOINT_LATEST)
    with (base_url st.1 +:+ "/apiv2/event/latest").
  rewrite get_json_pair.
  destruct (_get_json send _ _ st).1 as [items|e] eqn:Hfirst.
  - split; [by intros ? [= <-]|]. split; discriminate.
  - destruct (get_json_raises _ _ _ _ Hfirst) as [msg ->].
    split; [discriminate|]. split.
    + intros e [= <-] ->. reflexivity.
    + intros e [= <-] ->. cbn [negb].
      eexists. split.
      { rewrite (fetch_by_filter_state _ _ _ _ None None None _ _
                   (or_introl eq_refl) eq_refl).
        cbn [default requested fst base_url].
        by rewrite (left_id_L ∅ (∪)). }
      destruct limit; cbn [fmap option_fmap option_map];
        repeat split; by read_keys.
Qed.

End ServiceFacts.

(** ** The request theorem at a sample input *)

(** The box of the Aegean region of [example.py]. *)
Lemma ege_bbox_valid : _validate_bbox (36, 26, 40, 29.5)%R = Ok tt.
Proof.
  unfold _validate_bbox. split_Rleb; try reflexivity; exfalso; lra.
Qed.

Lemma fetch_by_filter_sends_witness :
  let bbox : option (R * R * R * R) := Some (36, 26, 40, 29.5)%R in
  let radius : option (R * R * R) := None in
  let st : AfadAPI * Net :=
    (__init__ BASE_URL 15 None,
     {| requests := []; clients_created := 0; clients_closed := [] |}) in
  (bbox = None ∨ radius = None)
  ∧ (∀ b, bbox = Some b → _validate_bbox b = Ok tt)
  ∧ (∀ c, radius = Some c → _validate_radius c = Ok tt)
  ∧ ∃ base : gmap string pyval,
      (fetch_by_filter (λ _ _ _, RequestError "down") unit unit (λ d, d)
         (λ t, t) (λ _, "2025-01-01T00:00:00")
         (WhenStr unit unit "2025-01-01T00:00:00")
         (WhenStr unit unit "2025-01-31T23:59:59") "magnitude" None bbox
         radius (Some {["minmag" := PFloat 3.5]}) st).2
      = requested "https://deprem.afad.gov.tr/apiv2/event/filter"
          ({["minmag" := PFloat 3.5]} ∪ base) st
      ∧ base !! "minlat" = Some (PFloat 36)
      ∧ base !! "orderby" = Some (PStr "magnitude").
Proof.
  cbv zeta.
  assert (H1 : (Some (36, 26, 40, 29.5)%R : option (R * R * R * R)) = None
               ∨ (None : option (R * R * R)) = None) by (by right).
  assert (H2 : ∀ b, Some (36, 26, 40, 29.5)%R = Some b →
                    _validate_bbox b = Ok tt).
  { intros b Hb. injection Hb as <-. exact ege_bbox_valid. }
  assert (H3 : ∀ c, (None : option (R * R * R)) = Some c →
                    _validate_radius c = Ok tt).
  { intros c Hc. discriminate Hc. }
  split; [exact H1|]. split; [exact H2|]. split; [exact H3|].
  destruct (fetch_by_filter_sends (λ _ _ _, RequestError "down") unit unit
              (λ d, d) (λ t, t) (λ _, "2025-01-01T00:00:00")
              (WhenStr unit unit "2025-01-01T00:00:00")
              (WhenStr unit unit "2025-01-31T23:59:59") "magnitude" None
              (Some (36, 26, 40, 29.5)%R) None
              (Some {["minmag" := PFloat 3.5]})
              (__init__ BASE_URL 15 None,
               {| requests := []; clients_created := 0;
                  clients_closed := [] |}) H1 H2 H3)
    as (base & Hst & _ & _ & Hord & _ & Hbox & _).
  exists base. split; [exact Hst|].
  split; [exact (proj1 (Hbox _ _ _ _ eq_refl)) | exact Hord].
Defined.
